(** * ShelfSense: the in-memory store of the point-of-sale backend

    A shallow embedding of [server/storage.ts] (class [MemStorage]), of the
    record types of [shared/schema.ts], of the product routes and of the
    cart of the billing page, followed by the properties of the stock
    ledger, the transaction processor and the analytics engine.

    Conventions of the embedding.
    - A JavaScript [Map<string, V>] is a [gmap string V]: [get] is lookup,
      [set] is insert (replacing the value of a key already present),
      [delete] is delete, [values()] is the list of values.  The map
      does not keep the order of insertion: what the analytics compute
      from [values()] is a count or an exact sum, and where a list made
      from [values()] is returned (a listing, the products of an alert,
      the first product with a barcode) the properties stated of it hold
      whatever the order.
    - Integers ([stock], [quantity], ...) are [Z].  A [decimal(10,2)] column
      and the amounts computed from it are kept in hundredths, as a [Z]:
      ["25.00"] is [2500].  Sums of amounts are therefore exact.
    - A [Date] is its number of milliseconds since the epoch.
    - A nullable column, or a property that may be missing from an object,
      is an [option]; [null] and [undefined] are both [None].
    - [randomUUID()] and [new Date()] are inputs of the operation that
      calls them: the identifier drawn and the current instant are passed
      as arguments.  An operation that draws several identifiers takes a
      function [gen], where [gen k] is the result of its k-th draw; the
      instants read within one call are taken to be one instant.
    - An [async] method is a computation in the monad [M]: it reads and
      writes the store, and either returns a value or throws; what was
      written before a [throw] stays written. *)

From Stdlib Require Import ZArith String Ascii Decimal DecimalNat DecimalString.
From stdpp Require Import gmap strings list fin_maps sorting.

Local Open Scope string_scope.
Local Open Scope Z_scope.

(** ** JavaScript helpers *)

Module JS.

(** [x || d] on a nullable number: [null], [undefined] and [0] are falsy. *)
Definition or_number (x : option Z) (d : Z) : Z :=
  match x with
  | Some v => if Z.eqb v 0 then d else v
  | None => d
  end.

(** [String(n)] for a natural number: its decimal digits. *)
Definition String_ (n : nat) : string :=
  NilEmpty.string_of_uint (Nat.to_uint n).

Fixpoint repeat_char (c : ascii) (k : nat) (s : string) : string :=
  match k with
  | O => s
  | S k' => String c (repeat_char c k' s)
  end.

(** [s.padStart(n, c)] for a one-character pad: [s] itself when it is
    already [n] long or longer. *)
Definition padStart (n : nat) (c : ascii) (s : string) : string :=
  repeat_char c (n - String.length s) s.

(** Reading back a string of decimal digits, leading zeros allowed. *)
Definition parse_digits (s : string) : option nat :=
  option_map Nat.of_uint (NilEmpty.uint_of_string s).

(** Spreading a partial object over a field: [{...old, ...upd}]. *)
Definition spread {A} (old : A) (upd : option A) : A :=
  match upd with
  | Some v => v
  | None => old
  end.

End JS.

(** ** Record types of [shared/schema.ts] *)

Definition Timestamp := Z.
Definition Decimal := Z.

Module Product.
Record t := mk {
  id : string;
  name : string;
  barcode : option string;
  price : Decimal;
  costPrice : option Decimal;
  category : string;
  brand : option string;
  description : option string;
  stock : option Z;
  minStock : option Z;
  maxStock : option Z;
  unit : option string;
  expiryDate : option Timestamp;
  isActive : option bool;
  createdAt : option Timestamp;
  updatedAt : option Timestamp
}.
End Product.

(** [InsertProduct]: the product columns without [id], [createdAt] and
    [updatedAt]; [stock] is one of its fields. *)
Module InsertProduct.
Record t := mk {
  name : string;
  barcode : option string;
  price : Decimal;
  costPrice : option Decimal;
  category : string;
  brand : option string;
  description : option string;
  stock : option Z;
  minStock : option Z;
  maxStock : option Z;
  unit : option string;
  expiryDate : option Timestamp;
  isActive : option bool
}.
End InsertProduct.

(** [Partial<InsertProduct>]: every field may be missing ([None]); a field
    that is present carries the value to store. *)
Module PartialProduct.
Record t := mk {
  name : option string;
  barcode : option (option string);
  price : option Decimal;
  costPrice : option (option Decimal);
  category : option string;
  brand : option (option string);
  description : option (option string);
  stock : option (option Z);
  minStock : option (option Z);
  maxStock : option (option Z);
  unit : option (option string);
  expiryDate : option (option Timestamp);
  isActive : option (option bool)
}.

Definition empty : t :=
  mk None None None None None None None None None None None None None.
End PartialProduct.

(** One line of a transaction: [{productId, quantity, price, name}]. *)
Module Item.
Record t := mk {
  productId : string;
  name : string;
  price : Decimal;
  quantity : Z
}.
End Item.

Module Transaction.
Record t := mk {
  id : string;
  transactionNumber : string;
  items : list Item.t;
  totalAmount : Decimal;
  discount : option Decimal;
  tax : option Decimal;
  paymentMethod : string;
  customerName : option string;
  customerPhone : option string;
  status : option string;
  createdAt : option Timestamp
}.
End Transaction.

(** [InsertTransaction]: the transaction columns without [id] and
    [createdAt].  [transactionNumber] is a field of it, [None] when the
    object handed over carries none; [createTransaction] overwrites it. *)
Module InsertTransaction.
Record t := mk {
  transactionNumber : option string;
  items : list Item.t;
  totalAmount : Decimal;
  discount : option Decimal;
  tax : option Decimal;
  paymentMethod : string;
  customerName : option string;
  customerPhone : option string;
  status : option string
}.
End InsertTransaction.

Module Category.
Record t := mk {
  id : string;
  name : string;
  description : option string;
  isActive : option bool;
  createdAt : option Timestamp
}.
End Category.

Module InsertCategory.
Record t := mk {
  name : string;
  description : option string;
  isActive : option bool
}.
End InsertCategory.

Module InventoryMovement.
Record t := mk {
  id : string;
  productId : string;
  type : string;
  quantity : Z;
  previousStock : Z;
  newStock : Z;
  reason : option string;
  transactionId : option string;
  createdAt : option Timestamp
}.
End InventoryMovement.

Module InsertInventoryMovement.
Record t := mk {
  productId : string;
  type : string;
  quantity : Z;
  previousStock : Z;
  newStock : Z;
  reason : option string;
  transactionId : option string
}.
End InsertInventoryMovement.

Module ShopSettings.
Record t := mk {
  id : string;
  shopName : string;
  ownerName : string;
  address : option string;
  phone : option string;
  email : option string;
  gstNumber : option string;
  currency : option string;
  timezone : option string;
  receiptFooter : option string;
  isOfflineMode : option bool;
  lastSyncAt : option Timestamp;
  createdAt : option Timestamp;
  updatedAt : option Timestamp
}.
End ShopSettings.

Module PartialShopSettings.
Record t := mk {
  shopName : option string;
  ownerName : option string;
  address : option (option string);
  phone : option (option string);
  email : option (option string);
  gstNumber : option (option string);
  currency : option (option string);
  timezone : option (option string);
  receiptFooter : option (option string);
  isOfflineMode : option (option bool);
  lastSyncAt : option (option Timestamp)
}.
End PartialShopSettings.

(** ** The store and its monad *)

(** The private fields of [MemStorage]. *)
Record MemStorage := mkStorage {
  products : gmap string Product.t;
  transactions : gmap string Transaction.t;
  categories : gmap string Category.t;
  inventoryMovements : gmap string InventoryMovement.t;
  shopSettings : option ShopSettings.t;
  transactionCounter : nat
}.

Definition set_products (f : gmap string Product.t -> gmap string Product.t)
    (s : MemStorage) : MemStorage :=
  mkStorage (f (products s)) (transactions s) (categories s)
            (inventoryMovements s) (shopSettings s) (transactionCounter s).

Definition set_transactions
    (f : gmap string Transaction.t -> gmap string Transaction.t)
    (s : MemStorage) : MemStorage :=
  mkStorage (products s) (f (transactions s)) (categories s)
            (inventoryMovements s) (shopSettings s) (transactionCounter s).

Definition set_categories (f : gmap string Category.t -> gmap string Category.t)
    (s : MemStorage) : MemStorage :=
  mkStorage (products s) (transactions s) (f (categories s))
            (inventoryMovements s) (shopSettings s) (transactionCounter s).

Definition set_inventoryMovements
    (f : gmap string InventoryMovement.t -> gmap string InventoryMovement.t)
    (s : MemStorage) : MemStorage :=
  mkStorage (products s) (transactions s) (categories s)
            (f (inventoryMovements s)) (shopSettings s) (transactionCounter s).

Definition set_shopSettings (v : option ShopSettings.t) (s : MemStorage)
    : MemStorage :=
  mkStorage (products s) (transactions s) (categories s)
            (inventoryMovements s) v (transactionCounter s).

Definition set_transactionCounter (n : nat) (s : MemStorage) : MemStorage :=
  mkStorage (products s) (transactions s) (categories s)
            (inventoryMovements s) (shopSettings s) n.

(** How a method ends: with a value, or with [throw new Error(msg)]. *)
Inductive Outcome (A : Type) : Type :=
| Return (a : A)
| Throw (msg : string).
Arguments Return {A} a.
Arguments Throw {A} msg.

(** A method of the store: final outcome and final store. *)
Definition M (A : Type) : Type := MemStorage -> Outcome A * MemStorage.

Definition ret {A} (a : A) : M A := fun s => (Return a, s).

Definition bind {A B} (m : M A) (k : A -> M B) : M B :=
  fun s =>
    match m s with
    | (Return a, s') => k a s'
    | (Throw msg, s') => (Throw msg, s')
    end.

Definition throw {A} (msg : string) : M A := fun s => (Throw msg, s).
Definition getStore : M MemStorage := fun s => (Return s, s).
Definition modify (f : MemStorage -> MemStorage) : M unit :=
  fun s => (Return tt, f s).

Global Instance M_ret : MRet M := @ret.
Global Instance M_bind : MBind M := fun A B k m => bind m k.

(** Final store and outcome of running a method. *)
Definition outcome {A} (m : M A) (s : MemStorage) : Outcome A := fst (m s).
Definition store_after {A} (m : M A) (s : MemStorage) : MemStorage := snd (m s).

(** The value a method returned, if it returned. *)
Definition outcome_value {A} (m : M A) (s : MemStorage) : option A :=
  match outcome m s with
  | Return a => Some a
  | Throw _ => None
  end.

(** ** Products and the stock ledger *)

Definition getProducts (s : MemStorage) : list Product.t :=
  snd <$> map_to_list (products s).

Definition getProduct (id : string) (s : MemStorage) : option Product.t :=
  products s !! id.

Definition createProduct (uuid : string) (now : Timestamp)
    (insertProduct : InsertProduct.t) : M Product.t :=
  let product :=
    Product.mk uuid
      (InsertProduct.name insertProduct)
      (InsertProduct.barcode insertProduct)
      (InsertProduct.price insertProduct)
      (InsertProduct.costPrice insertProduct)
      (InsertProduct.category insertProduct)
      (InsertProduct.brand insertProduct)
      (InsertProduct.description insertProduct)
      (InsertProduct.stock insertProduct)
      (InsertProduct.minStock insertProduct)
      (InsertProduct.maxStock insertProduct)
      (InsertProduct.unit insertProduct)
      (InsertProduct.expiryDate insertProduct)
      (InsertProduct.isActive insertProduct)
      (Some now) (Some now) in
  modify (set_products (insert (Product.id product) product)) ;;
  ret product.

Definition updateProduct (id : string) (updateData : PartialProduct.t)
    (now : Timestamp) : M Product.t :=
  s ← getStore;
  match products s !! id with
  | None => throw "Product not found"
  | Some existing =>
      let updated :=
        Product.mk (Product.id existing)
          (JS.spread (Product.name existing) (PartialProduct.name updateData))
          (JS.spread (Product.barcode existing) (PartialProduct.barcode updateData))
          (JS.spread (Product.price existing) (PartialProduct.price updateData))
          (JS.spread (Product.costPrice existing) (PartialProduct.costPrice updateData))
          (JS.spread (Product.category existing) (PartialProduct.category updateData))
          (JS.spread (Product.brand existing) (PartialProduct.brand updateData))
          (JS.spread (Product.description existing) (PartialProduct.description updateData))
          (JS.spread (Product.stock existing) (PartialProduct.stock updateData))
          (JS.spread (Product.minStock existing) (PartialProduct.minStock updateData))
          (JS.spread (Product.maxStock existing) (PartialProduct.maxStock updateData))
          (JS.spread (Product.unit existing) (PartialProduct.unit updateData))
          (JS.spread (Product.expiryDate existing) (PartialProduct.expiryDate updateData))
          (JS.spread (Product.isActive existing) (PartialProduct.isActive updateData))
          (Product.createdAt existing)
          (Some now) in
      modify (set_products (insert id updated)) ;;
      ret updated
  end.

Definition deleteProduct (id : string) : M unit :=
  modify (set_products (delete id)).

(** [{...product, stock: newStock, updatedAt: new Date()}]. *)
Definition with_stock (product : Product.t) (newStock : Z) (now : Timestamp)
    : Product.t :=
  Product.mk (Product.id product) (Product.name product)
    (Product.barcode product) (Product.price product)
    (Product.costPrice product) (Product.category product)
    (Product.brand product) (Product.description product)
    (Some newStock)
    (Product.minStock product) (Product.maxStock product)
    (Product.unit product) (Product.expiryDate product)
    (Product.isActive product) (Product.createdAt product) (Some now).

Definition updateStock (uuid : string) (now : Timestamp)
    (productId : string) (quantity : Z) : M unit :=
  s ← getStore;
  match products s !! productId with
  | None => throw "Product not found"
  | Some product =>
      let previousStock := JS.or_number (Product.stock product) 0 in
      let newStock := Z.max 0 (previousStock + quantity) in
      let updated := with_stock product newStock now in
      modify (set_products (insert productId updated)) ;;
      let movement :=
        InventoryMovement.mk uuid productId
          (if 0 <? quantity then "purchase" else "sale")
          (Z.abs quantity)
          previousStock
          newStock
          (Some (if 0 <? quantity then "Stock added" else "Sale"))
          None
          (Some now) in
      modify (set_inventoryMovements (insert (InventoryMovement.id movement) movement))
  end.

(** ** Transactions *)

(** [`TXN${String(counter).padStart(4, '0')}`]. *)
Definition transactionNumberOf (counter : nat) : string :=
  "TXN" +:+ JS.padStart 4 "0" (JS.String_ counter).

(** The loop [for (const item of items) await this.updateStock(...)]; the
    movement of the item at position [k] takes the draw [gen (k + 1)]. *)
Fixpoint sellItems (gen : nat -> string) (k : nat) (now : Timestamp)
    (items : list Item.t) : M unit :=
  match items with
  | [] => mret tt
  | item :: rest =>
      updateStock (gen k) now (Item.productId item) (- Item.quantity item) ;;
      sellItems gen (S k) now rest
  end.

Definition createTransaction (gen : nat -> string) (now : Timestamp)
    (insertTransaction : InsertTransaction.t) : M Transaction.t :=
  s ← getStore;
  let transaction :=
    Transaction.mk (gen 0%nat)
      (transactionNumberOf (transactionCounter s))
      (InsertTransaction.items insertTransaction)
      (InsertTransaction.totalAmount insertTransaction)
      (InsertTransaction.discount insertTransaction)
      (InsertTransaction.tax insertTransaction)
      (InsertTransaction.paymentMethod insertTransaction)
      (InsertTransaction.customerName insertTransaction)
      (InsertTransaction.customerPhone insertTransaction)
      (InsertTransaction.status insertTransaction)
      (Some now) in
  modify (set_transactionCounter (S (transactionCounter s))) ;;
  sellItems gen 1 now (InsertTransaction.items insertTransaction) ;;
  modify (set_transactions (insert (Transaction.id transaction) transaction)) ;;
  mret transaction.

Definition getTransaction (id : string) (s : MemStorage)
    : option Transaction.t :=
  transactions s !! id.

(** [new Date(d)] for a nullable timestamp column: [null] is the epoch. *)
Definition new_Date (d : option Timestamp) : Timestamp := default 0 d.

Definition getTransactionsByDateRange (startDate endDate : Timestamp)
    (s : MemStorage) : list Transaction.t :=
  filter
    (fun t =>
       let transactionDate := new_Date (Transaction.createdAt t) in
       startDate <= transactionDate /\ transactionDate <= endDate)
    (snd <$> map_to_list (transactions s)).

(** ** Categories, movements, settings *)

Definition getCategories (s : MemStorage) : list Category.t :=
  snd <$> map_to_list (categories s).

Definition createCategory (uuid : string) (now : Timestamp)
    (insertCategory : InsertCategory.t) : M Category.t :=
  let category :=
    Category.mk uuid
      (InsertCategory.name insertCategory)
      (InsertCategory.description insertCategory)
      (InsertCategory.isActive insertCategory)
      (Some now) in
  modify (set_categories (insert (Category.id category) category)) ;;
  mret category.

Definition createInventoryMovement (uuid : string) (now : Timestamp)
    (insertMovement : InsertInventoryMovement.t) : M InventoryMovement.t :=
  let movement :=
    InventoryMovement.mk uuid
      (InsertInventoryMovement.productId insertMovement)
      (InsertInventoryMovement.type insertMovement)
      (InsertInventoryMovement.quantity insertMovement)
      (InsertInventoryMovement.previousStock insertMovement)
      (InsertInventoryMovement.newStock insertMovement)
      (InsertInventoryMovement.reason insertMovement)
      (InsertInventoryMovement.transactionId insertMovement)
      (Some now) in
  modify (set_inventoryMovements (insert (InventoryMovement.id movement) movement)) ;;
  mret movement.

Definition getShopSettings (s : MemStorage) : option ShopSettings.t :=
  shopSettings s.

Definition updateShopSettings (updateData : PartialShopSettings.t)
    (now : Timestamp) : M ShopSettings.t :=
  s ← getStore;
  match shopSettings s with
  | None => throw "Shop settings not found"
  | Some old =>
      let updated :=
        ShopSettings.mk (ShopSettings.id old)
          (JS.spread (ShopSettings.shopName old) (PartialShopSettings.shopName updateData))
          (JS.spread (ShopSettings.ownerName old) (PartialShopSettings.ownerName updateData))
          (JS.spread (ShopSettings.address old) (PartialShopSettings.address updateData))
          (JS.spread (ShopSettings.phone old) (PartialShopSettings.phone updateData))
          (JS.spread (ShopSettings.email old) (PartialShopSettings.email updateData))
          (JS.spread (ShopSettings.gstNumber old) (PartialShopSettings.gstNumber updateData))
          (JS.spread (ShopSettings.currency old) (PartialShopSettings.currency updateData))
          (JS.spread (ShopSettings.timezone old) (PartialShopSettings.timezone updateData))
          (JS.spread (ShopSettings.receiptFooter old) (PartialShopSettings.receiptFooter updateData))
          (JS.spread (ShopSettings.isOfflineMode old) (PartialShopSettings.isOfflineMode updateData))
          (JS.spread (ShopSettings.lastSyncAt old) (PartialShopSettings.lastSyncAt updateData))
          (ShopSettings.createdAt old)
          (Some now) in
      modify (set_shopSettings (Some updated)) ;;
      mret updated
  end.

(** ** The mutating interface as a whole *)

(** One call of a mutating method of [IStorage], with the identifiers and
    the instant it draws.  The remaining methods ([getProducts],
    [getTransaction], [getSalesAnalytics], ...) are functions of the store
    and leave it as it is. *)
Inductive Op : Type :=
| OpCreateProduct (uuid : string) (now : Timestamp) (p : InsertProduct.t)
| OpUpdateProduct (id : string) (upd : PartialProduct.t) (now : Timestamp)
| OpDeleteProduct (id : string)
| OpUpdateStock (uuid : string) (now : Timestamp) (productId : string) (quantity : Z)
| OpCreateTransaction (gen : nat -> string) (now : Timestamp) (t : InsertTransaction.t)
| OpCreateCategory (uuid : string) (now : Timestamp) (c : InsertCategory.t)
| OpCreateInventoryMovement (uuid : string) (now : Timestamp) (m : InsertInventoryMovement.t)
| OpUpdateShopSettings (upd : PartialShopSettings.t) (now : Timestamp).

(** The store a call leaves behind, whether it returned or threw. *)
Definition step (op : Op) (s : MemStorage) : MemStorage :=
  match op with
  | OpCreateProduct uuid now p => store_after (createProduct uuid now p) s
  | OpUpdateProduct id upd now => store_after (updateProduct id upd now) s
  | OpDeleteProduct id => store_after (deleteProduct id) s
  | OpUpdateStock uuid now productId quantity =>
      store_after (updateStock uuid now productId quantity) s
  | OpCreateTransaction gen now t => store_after (createTransaction gen now t) s
  | OpCreateCategory uuid now c => store_after (createCategory uuid now c) s
  | OpCreateInventoryMovement uuid now m =>
      store_after (createInventoryMovement uuid now m) s
  | OpUpdateShopSettings upd now => store_after (updateShopSettings upd now) s
  end.

(** A history of calls, oldest first. *)
Definition steps (ops : list Op) (s : MemStorage) : MemStorage :=
  foldl (fun acc op => step op acc) s ops.

Definition isCreateTransaction (op : Op) : bool :=
  match op with
  | OpCreateTransaction _ _ _ => true
  | _ => false
  end.

(** How many [createTransaction] calls a history holds. *)
Definition createTransactionCalls (ops : list Op) : nat :=
  length (List.filter isCreateTransaction ops).

(** ** The constructor *)

Definition emptyStorage : MemStorage :=
  mkStorage ∅ ∅ ∅ ∅ None 1.

Definition days (n : Z) : Z := n * 24 * 60 * 60 * 1000.

(** [seedData()]: three categories, four products and the shop settings;
    [gen 0 .. gen 7] are the identifiers drawn, in the order of the calls. *)
Definition seedData (gen : nat -> string) (now : Timestamp)
    (s : MemStorage) : MemStorage :=
  let beveragesCategory :=
    Category.mk (gen 0%nat) "Beverages" (Some "Cold drinks and beverages")
      (Some true) (Some now) in
  let snacksCategory :=
    Category.mk (gen 1%nat) "Snacks" (Some "Snacks and quick bites")
      (Some true) (Some now) in
  let personalCareCategory :=
    Category.mk (gen 2%nat) "Personal Care"
      (Some "Personal hygiene and care products") (Some true) (Some now) in
  let sampleProducts :=
    [ Product.mk (gen 3%nat) "Coca Cola 600ml" (Some "8901030001234") 2500
        (Some 2000) "Beverages" (Some "Coca Cola")
        (Some "Refreshing cola drink") (Some 45) (Some 10) (Some 100)
        (Some "bottle") (Some (now + days 90)) (Some true)
        (Some now) (Some now);
      Product.mk (gen 4%nat) "Maggi 2-Minute Noodles" (Some "8901030002345") 1200
        (Some 1000) "Snacks" (Some "Nestle")
        (Some "Instant noodles") (Some 8) (Some 10) (Some 50)
        (Some "packet") (Some (now + days 180)) (Some true)
        (Some now) (Some now);
      Product.mk (gen 5%nat) "Colgate Toothpaste" (Some "8901030003456") 4500
        (Some 3500) "Personal Care" (Some "Colgate")
        (Some "Dental care toothpaste") (Some 3) (Some 5) (Some 25)
        (Some "tube") (Some (now + days 365)) (Some true)
        (Some now) (Some now);
      Product.mk (gen 6%nat) "Britannia Biscuits" (Some "8901030004567") 2000
        (Some 1500) "Snacks" (Some "Britannia")
        (Some "Cream biscuits") (Some 38) (Some 10) (Some 60)
        (Some "packet") (Some (now + days 60)) (Some true)
        (Some now) (Some now) ] in
  let settings :=
    ShopSettings.mk (gen 7%nat) "Ramesh General Store" "Ramesh Kumar"
      (Some "123 Market Street, Delhi") (Some "+91 98765 43210")
      (Some "ramesh@store.com") (Some "07AAACR1234A1Z5") (Some "INR")
      (Some "Asia/Kolkata") (Some "Thank you for shopping with us!")
      (Some false) (Some now) (Some now) (Some now) in
  let s1 :=
    set_categories
      (fun m =>
         <[Category.id personalCareCategory := personalCareCategory]>
           (<[Category.id snacksCategory := snacksCategory]>
              (<[Category.id beveragesCategory := beveragesCategory]> m)))
      s in
  let s2 :=
    foldl
      (fun acc product =>
         set_products (insert (Product.id product) product) acc)
      s1 sampleProducts in
  set_shopSettings (Some settings) s2.

(** [new MemStorage()]. *)
Definition newMemStorage (gen : nat -> string) (now : Timestamp) : MemStorage :=
  seedData gen now emptyStorage.

(** ** Calendar days of the host

    The part of [Date] the analytics use, for a host whose local time is
    UTC shifted by a fixed offset [tz] (in milliseconds; no daylight
    saving).  For [toDateString()] only equality matters, so it is the
    number of the local calendar day. *)

Module Calendar.

Definition msPerDay : Z := 24 * 60 * 60 * 1000.

(** Year, month and day of the month of a day counted from 1970-01-01
    (proleptic Gregorian calendar). *)
Definition civil (day : Z) : Z * Z * Z :=
  let z := day + 719468 in
  let era := z / 146097 in
  let doe := z - era * 146097 in
  let yoe := (doe - doe / 1460 + doe / 36524 - doe / 146096) / 365 in
  let doy := doe - (365 * yoe + yoe / 4 - yoe / 100) in
  let mp := (5 * doy + 2) / 153 in
  let d := doy - (153 * mp + 2) / 5 + 1 in
  let m := if mp <? 10 then mp + 3 else mp - 9 in
  let y := yoe + era * 400 + (if m <=? 2 then 1 else 0) in
  (y, m, d).

Definition pad (width : nat) (n : Z) : string :=
  JS.padStart width "0" (JS.String_ (Z.to_nat n)).

(** [date.toISOString().split('T')[0]]: the UTC date, [YYYY-MM-DD]
    (years 0 to 9999). *)
Definition isoDate (t : Timestamp) : string :=
  let '(y, m, d) := civil (t / msPerDay) in
  pad 4 y +:+ "-" +:+ pad 2 m +:+ "-" +:+ pad 2 d.

Section Host.
Variable tz : Z.

(** [date.toDateString()], up to the naming of days. *)
Definition toDateString (t : Timestamp) : Z := (t + tz) / msPerDay.

(** [new Date(now.getFullYear(), now.getMonth(), now.getDate())]. *)
Definition startOfDay (t : Timestamp) : Timestamp :=
  toDateString t * msPerDay - tz.

(** [new Date(now.getFullYear(), now.getMonth(), 1)]. *)
Definition startOfMonth (t : Timestamp) : Timestamp :=
  let '(_, _, d) := civil (toDateString t) in
  (toDateString t - (d - 1)) * msPerDay - tz.
End Host.

End Calendar.

(** ** Analytics *)

Inductive Period : Type := daily | weekly | monthly.

Record TrendPoint := mkTrendPoint {
  date : string;
  amount : Decimal
}.

(** [SalesAnalytics] without [profitMargin], [topCategories] and
    [topProducts] (a floating-point ratio and two sorted rankings). *)
Record SalesAnalytics := mkSalesAnalytics {
  dailySales : Decimal;
  itemsSold : Z;
  lowStockItems : nat;
  salesTrend : list TrendPoint
}.

(** [ts.reduce((sum, t) => sum + parseFloat(t.totalAmount), 0)]. *)
Definition sumTotalAmount (ts : list Transaction.t) : Decimal :=
  foldl (fun sum t => sum + Transaction.totalAmount t) 0 ts.

(** Transactions created on the local calendar day of [date]. *)
Definition onDayOf (tz : Z) (date : Timestamp) (ts : list Transaction.t)
    : list Transaction.t :=
  filter
    (fun t =>
       let transactionDate := new_Date (Transaction.createdAt t) in
       Calendar.toDateString tz transactionDate = Calendar.toDateString tz date)
    ts.

Definition windowStart (tz : Z) (period : Period) (now : Timestamp) : Timestamp :=
  match period with
  | daily => Calendar.startOfDay tz now
  | weekly => now - 7 * 24 * 60 * 60 * 1000
  | monthly => Calendar.startOfMonth tz now
  end.

Definition getSalesAnalytics (tz : Z) (now : Timestamp) (period : Period)
    (s : MemStorage) : SalesAnalytics :=
  let startDate := windowStart tz period now in
  let transactions := getTransactionsByDateRange startDate now s in
  let products := getProducts s in
  let dailySales := sumTotalAmount (onDayOf tz now transactions) in
  let itemsSold :=
    foldl
      (fun sum t =>
         sum + foldl (fun itemSum item => itemSum + Item.quantity item) 0
                 (Transaction.items t))
      0 transactions in
  let lowStockItems :=
    length
      (filter
         (fun p =>
            JS.or_number (Product.stock p) 0 < JS.or_number (Product.minStock p) 5)
         products) in
  let salesTrend :=
    (fun i =>
       let date := now - i * 24 * 60 * 60 * 1000 in
       let dayTransactions := onDayOf tz date transactions in
       let amount := sumTotalAmount dayTransactions in
       mkTrendPoint (Calendar.isoDate date) amount)
    <$> [6; 5; 4; 3; 2; 1; 0] in
  mkSalesAnalytics dailySales itemsSold lowStockItems salesTrend.

(** ** The billing page: the lines of the cart *)

Module Billing.

Record CartItem := mkCartItem {
  product : Product.t;
  quantity : Z
}.

End Billing.

(** ** The rest of the store's readers *)

(** [Array.from(this.products.values()).find(p => p.barcode === barcode)].
    When several products carry the barcode, which one comes first
    depends on the order of insertion, which the map does not keep. *)
Definition getProductByBarcode (barcode : string) (s : MemStorage)
    : option Product.t :=
  snd <$> list_find (fun p => Product.barcode p = Some barcode) (getProducts s).

(** The comparator [(a, b) => new Date(b.createdAt!).getTime() -
    new Date(a.createdAt!).getTime()] puts [a] before [b] when this holds. *)
Definition newerFirst {A} (createdAt : A -> option Timestamp) (a b : A) : Prop :=
  new_Date (createdAt b) <= new_Date (createdAt a).

Global Instance newerFirst_dec {A} (createdAt : A -> option Timestamp) (a b : A)
    : Decision (newerFirst createdAt a b).
Proof. unfold newerFirst. apply _. Defined.

(** [getTransactions]: every transaction, newest first. *)
Definition getTransactions (s : MemStorage) : list Transaction.t :=
  merge_sort (newerFirst Transaction.createdAt)
    (snd <$> map_to_list (transactions s)).

(** [getInventoryMovements(productId?)]: with a product id (the empty
    string is falsy, like a missing one) the movements of that product,
    unsorted; without, every movement, newest first. *)
Definition getInventoryMovements (productId : option string) (s : MemStorage)
    : list InventoryMovement.t :=
  let movements := snd <$> map_to_list (inventoryMovements s) in
  match productId with
  | Some (String c rest) =>
      filter (fun m => InventoryMovement.productId m = String c rest) movements
  | _ => merge_sort (newerFirst InventoryMovement.createdAt) movements
  end.

(** ** Inventory alerts *)

Inductive AlertType : Type := low_stock | out_of_stock | expiring_soon.

Module InventoryAlert.
Record entry := mkEntry {
  id : string;
  name : string;
  currentStock : Z;
  daysToExpiry : option Z
}.

Record t := mk {
  type : AlertType;
  products : list entry
}.
End InventoryAlert.

(** [Math.ceil(x / d)] for integers [x] and [d > 0].  The quotient of two
    integers below 2^52 in size by the length of a day is far enough from
    the next integer for the floating-point division not to reach it. *)
Definition ceilDiv (x d : Z) : Z := - ((- x) / d).

(** [Math.ceil((new Date(p.expiryDate).getTime() - now.getTime()) /
    (1000 * 60 * 60 * 24))]. *)
Definition daysToExpiry (now expiryDate : Timestamp) : Z :=
  ceilDiv (expiryDate - now) (1000 * 60 * 60 * 24).

(** [if (found.length > 0) alerts.push({type, products: found.map(f)})]. *)
Definition pushAlert (type : AlertType) (f : Product.t -> InventoryAlert.entry)
    (found : list Product.t) : list InventoryAlert.t :=
  match found with
  | [] => []
  | _ => [InventoryAlert.mk type (f <$> found)]
  end.

Definition isLowStock (p : Product.t) : Prop :=
  JS.or_number (Product.stock p) 0 < JS.or_number (Product.minStock p) 5 /\
  JS.or_number (Product.stock p) 0 > 0.

Definition isOutOfStock (p : Product.t) : Prop :=
  JS.or_number (Product.stock p) 0 = 0.

Definition isExpiringSoon (now : Timestamp) (p : Product.t) : Prop :=
  match Product.expiryDate p with
  | None => False
  | Some expiryDate =>
      daysToExpiry now expiryDate <= 7 /\ daysToExpiry now expiryDate > 0
  end.

Global Instance isLowStock_dec p : Decision (isLowStock p).
Proof. unfold isLowStock. apply _. Defined.

Global Instance isOutOfStock_dec p : Decision (isOutOfStock p).
Proof. unfold isOutOfStock. apply _. Defined.

Global Instance isExpiringSoon_dec now p : Decision (isExpiringSoon now p).
Proof. unfold isExpiringSoon. destruct (Product.expiryDate p); apply _. Defined.

Definition getInventoryAlerts (now : Timestamp) (s : MemStorage)
    : list InventoryAlert.t :=
  let products := getProducts s in
  let lowStockProducts := filter isLowStock products in
  let outOfStockProducts := filter isOutOfStock products in
  let expiringSoonProducts := filter (isExpiringSoon now) products in
  (pushAlert low_stock
     (fun p =>
        InventoryAlert.mkEntry (Product.id p) (Product.name p)
          (JS.or_number (Product.stock p) 0) None)
     lowStockProducts
   ++ pushAlert out_of_stock
        (fun p => InventoryAlert.mkEntry (Product.id p) (Product.name p) 0 None)
        outOfStockProducts
   ++ pushAlert expiring_soon
        (fun p =>
           InventoryAlert.mkEntry (Product.id p) (Product.name p)
             (JS.or_number (Product.stock p) 0)
             (Some (daysToExpiry now (default 0 (Product.expiryDate p)))))
        expiringSoonProducts)%list.

(** ** The billing page: the cart *)

Module Cart.

Definition isProduct (productId : string) (item : Billing.CartItem) : Prop :=
  Product.id (Billing.product item) = productId.

Global Instance isProduct_dec productId item : Decision (isProduct productId item).
Proof. unfold isProduct. apply _. Defined.

(** [prev.map(item => item.product.id === productId ?
    {...item, quantity} : item)]. *)
Definition setQuantity (productId : string) (f : Z -> Z)
    (prev : list Billing.CartItem) : list Billing.CartItem :=
  (fun item =>
     if decide (isProduct productId item)
     then Billing.mkCartItem (Billing.product item) (f (Billing.quantity item))
     else item) <$> prev.

(** [addToCart]: nothing for a product out of stock, nothing when the
    line already holds as many as the product's stock, one more on the
    line of the product, or a new line of one at the end. *)
Definition addToCart (product : Product.t) (prev : list Billing.CartItem)
    : list Billing.CartItem :=
  if decide (JS.or_number (Product.stock product) 0 <= 0) then prev
  else
    match list_find (isProduct (Product.id product)) prev with
    | Some (_, existingItem) =>
        if decide (Billing.quantity existingItem
                   >= JS.or_number (Product.stock product) 0)
        then prev
        else setQuantity (Product.id product) (fun q => q + 1) prev
    | None => (prev ++ [Billing.mkCartItem product 1])%list
    end.

Definition removeFromCart (productId : string) (prev : list Billing.CartItem)
    : list Billing.CartItem :=
  filter (fun item => Product.id (Billing.product item) <> productId) prev.

(** [updateQuantity]: a quantity of 0 or less removes the line; a quantity
    above the stock of the line's product is refused; otherwise the line
    takes the quantity. *)
Definition updateQuantity (productId : string) (newQuantity : Z)
    (cart : list Billing.CartItem) : list Billing.CartItem :=
  if decide (newQuantity <= 0) then removeFromCart productId cart
  else
    match list_find (isProduct productId) cart with
    | Some (_, item) =>
        if decide (newQuantity
                   > JS.or_number (Product.stock (Billing.product item)) 0)
        then cart
        else setQuantity productId (fun _ => newQuantity) cart
    | None => setQuantity productId (fun _ => newQuantity) cart
    end.

End Cart.

(** ** The routes over the store *)

Module Routes.

Inductive Body : Type :=
| JsonProduct (p : option Product.t)
| JsonMessage (message : string)
| NoBody.

Record Response := mkResponse {
  status : nat;
  body : Body
}.

(** [error.message || fallback]. *)
Definition messageOr (message fallback : string) : string :=
  match message with
  | EmptyString => fallback
  | _ => message
  end.

(** [GET /api/products/:id]. *)
Definition getProductById (id : string) (s : MemStorage) : Response :=
  match getProduct id s with
  | None => mkResponse 404 (JsonMessage "Product not found")
  | Some product => mkResponse 200 (JsonProduct (Some product))
  end.

(** [GET /api/products/barcode/:barcode]. *)
Definition getByBarcode (barcode : string) (s : MemStorage) : Response :=
  match getProductByBarcode barcode s with
  | None => mkResponse 404 (JsonMessage "Product not found")
  | Some product => mkResponse 200 (JsonProduct (Some product))
  end.

(** [DELETE /api/products/:id]. *)
Definition deleteProductById (id : string) (s : MemStorage)
    : Response * MemStorage :=
  match deleteProduct id s with
  | (Return _, s') => (mkResponse 204 NoBody, s')
  | (Throw _, s') => (mkResponse 500 (JsonMessage "Failed to delete product"), s')
  end.

(** [POST /api/products/:id/stock]; [quantity] is [None] when the body's
    [quantity] is not a number. *)
Definition postStock (uuid : string) (now : Timestamp) (id : string)
    (quantity : option Z) (s : MemStorage) : Response * MemStorage :=
  match quantity with
  | None => (mkResponse 400 (JsonMessage "Quantity must be a number"), s)
  | Some q =>
      match updateStock uuid now id q s with
      | (Return _, s') => (mkResponse 200 (JsonProduct (getProduct id s')), s')
      | (Throw message, s') =>
          (mkResponse 400 (JsonMessage (messageOr message "Failed to update stock")), s')
      end
  end.

End Routes.

(** ** What the specification asks of a transaction *)

(** Sum over the items of unit price times quantity. *)
Definition itemsSubtotal (items : list Item.t) : Decimal :=
  foldr (fun item acc => Item.price item * Item.quantity item + acc) 0 items.

(** The checkout computation of the specification: the subtotal of the
    transaction's own items minus its discount (0 when unset), floored at 0. *)
Definition checkoutTotal (items : list Item.t) (discount : option Decimal)
    : Decimal :=
  Z.max 0 (itemsSubtotal items - default 0 discount).

(** A product is low on stock in the words of the specification: active,
    and stock strictly below [minStock], 5 when unset. *)
Definition lowStockSpec (p : Product.t) : bool :=
  default false (Product.isActive p)
  && (default 0 (Product.stock p) <? default 5 (Product.minStock p)).

(** The stock of a product as the specification counts it: 0 when unset. *)
Definition currentStock (p : Product.t) : Z := default 0 (Product.stock p).

(** The same without the condition on [isActive]. *)
Definition belowMinStock (p : Product.t) : bool :=
  default 0 (Product.stock p) <? default 5 (Product.minStock p).

(** Every item refers to a product of the store. *)
Definition allPresent (items : list Item.t) (s : MemStorage) : Prop :=
  forall item, item ∈ items -> is_Some (products s !! Item.productId item).

(** The stock a product [id] is left with when the items are sold one
    after the other, starting from the stock [st]: each item of that
    product takes its quantity off, and the result is floored at 0. *)
Definition soldStock (id : string) (items : list Item.t) (st : Z) : Z :=
  foldl
    (fun acc item =>
       if decide (Item.productId item = id)
       then Z.max 0 (acc - Item.quantity item)
       else acc)
    st items.

(** The calls after which the stock of the product [id] may differ:
    [updateStock] on it, [createTransaction] with an item of it,
    [updateProduct] of it with a [stock] field, [createProduct] storing
    under its identifier. *)
Definition mayChangeStock (op : Op) (id : string) : Prop :=
  match op with
  | OpUpdateStock _ _ productId _ => productId = id
  | OpCreateTransaction _ _ ins =>
      exists item, item ∈ InsertTransaction.items ins /\ Item.productId item = id
  | OpUpdateProduct productId upd _ =>
      productId = id /\ is_Some (PartialProduct.stock upd)
  | OpCreateProduct uuid _ _ => uuid = id
  | _ => False
  end.

(** The record [createTransaction] builds before it touches the stock. *)
Definition newTransaction (gen : nat -> string) (now : Timestamp)
    (ins : InsertTransaction.t) (s : MemStorage) : Transaction.t :=
  Transaction.mk (gen 0%nat)
    (transactionNumberOf (transactionCounter s))
    (InsertTransaction.items ins)
    (InsertTransaction.totalAmount ins)
    (InsertTransaction.discount ins)
    (InsertTransaction.tax ins)
    (InsertTransaction.paymentMethod ins)
    (InsertTransaction.customerName ins)
    (InsertTransaction.customerPhone ins)
    (InsertTransaction.status ins)
    (Some now).

(** ** Vocabulary of the further properties *)

(** Every record is stored under its own identifier. *)
Definition keyedById (s : MemStorage) : Prop :=
  (forall k p, products s !! k = Some p -> Product.id p = k) /\
  (forall k t, transactions s !! k = Some t -> Transaction.id t = k) /\
  (forall k c, categories s !! k = Some c -> Category.id c = k) /\
  (forall k m, inventoryMovements s !! k = Some m -> InventoryMovement.id m = k).

(** The calls that add or remove the product identifier [id]. *)
Definition addsOrRemovesProduct (op : Op) (id : string) : Prop :=
  match op with
  | OpCreateProduct uuid _ _ => uuid = id
  | OpDeleteProduct productId => productId = id
  | _ => False
  end.

(** The calls that write a transaction under the identifier [k]. *)
Definition writesTransaction (op : Op) (k : string) : Prop :=
  match op with
  | OpCreateTransaction gen _ _ => gen 0%nat = k
  | _ => False
  end.

(** The calls that may write a movement under the identifier [k]. *)
Definition writesMovement (op : Op) (k : string) : Prop :=
  match op with
  | OpUpdateStock uuid _ _ _ => uuid = k
  | OpCreateInventoryMovement uuid _ _ => uuid = k
  | OpCreateTransaction gen _ ins =>
      exists j, (1 <= j <= length (InsertTransaction.items ins))%nat /\ gen j = k
  | _ => False
  end.

(** No product of the store has a negative stock. *)
Definition nonNegativeStock (s : MemStorage) : Prop :=
  forall id p, products s !! id = Some p -> 0 <= currentStock p.

(** The call writes no negative stock value of its own: [createProduct]
    and [updateProduct] store the stock they are handed. *)
Definition writesNoNegativeStock (op : Op) : Prop :=
  match op with
  | OpCreateProduct _ _ ins => 0 <= default 0 (InsertProduct.stock ins)
  | OpUpdateProduct _ upd _ =>
      match PartialProduct.stock upd with
      | Some v => 0 <= default 0 v
      | None => True
      end
  | _ => True
  end.

(** The quantity of the product [id] over the items of a transaction. *)
Definition quantityOf (id : string) (items : list Item.t) : Z :=
  foldr
    (fun item acc =>
       if decide (Item.productId item = id) then Item.quantity item + acc else acc)
    0 items.

(** The product identifiers of the lines of a cart, in order. *)
Definition cartIds (cart : list Billing.CartItem) : list string :=
  (fun item => Product.id (Billing.product item)) <$> cart.

(** A cart as the billing page keeps it: one line per product, each of at
    least one piece and of no more than the stock of the product on it. *)
Definition cartWellFormed (cart : list Billing.CartItem) : Prop :=
  NoDup (cartIds cart) /\
  forall item, item ∈ cart ->
    1 <= Billing.quantity item /\
    Billing.quantity item <= JS.or_number (Product.stock (Billing.product item)) 0.

(** Every transaction of the store was created at [now] or before. *)
Definition noneFromTheFuture (now : Timestamp) (s : MemStorage) : Prop :=
  forall k t, transactions s !! k = Some t ->
    new_Date (Transaction.createdAt t) <= now.

(** ** Sample data *)

Module Sample.

(** A source of identifiers that never repeats itself. *)
Definition gen (prefix : string) (k : nat) : string :=
  prefix +:+ JS.String_ k.

(** 2026-11-03T12:00:00Z. *)
Definition noon : Timestamp := 1793707200000.

(** The store right after construction. *)
Definition shop : MemStorage := newMemStorage (gen "seed-") noon.

Definition cola : string := "seed-3".

Definition colaProduct : Product.t :=
  Product.mk cola "Coca Cola 600ml" (Some "8901030001234") 2500
    (Some 2000) "Beverages" (Some "Coca Cola")
    (Some "Refreshing cola drink") (Some 45) (Some 10) (Some 100)
    (Some "bottle") (Some (noon + days 90)) (Some true)
    (Some noon) (Some noon).

Definition line (productId : string) (price quantity : Z) : Item.t :=
  Item.mk productId "item" price quantity.

Definition sale (items : list Item.t) (totalAmount : Decimal)
    (paymentMethod : string) : InsertTransaction.t :=
  InsertTransaction.mk None items totalAmount (Some 0) (Some 0)
    paymentMethod None None (Some "completed").

(** Two bottles at 10.00 each, billed 0.01 in all. *)
Definition mispriced : InsertTransaction.t :=
  sale [line cola 1000 2] 1 "cash".

(** No item at all, and a payment method that is none of cash, upi, card. *)
Definition emptySale : InsertTransaction.t :=
  sale [] 0 "barter".

(** Two bottles of cola, then a product the store has never held. *)
Definition brokenSale : InsertTransaction.t :=
  sale [line cola 2500 2; line "nope" 100 1] 5100 "cash".

(** A stock count typed into the product form. *)
Definition recount : PartialProduct.t :=
  PartialProduct.mk None None None None None None None (Some (Some 999))
    None None None None None.

(** A refused sale followed by other work. *)
Definition refusedFirst : list Op :=
  [OpCreateTransaction (gen "a-") noon brokenSale;
   OpUpdateStock "m-9" noon cola 5].

(** A product taken off the shelves, one piece left, threshold 10. *)
Definition discontinued : InsertProduct.t :=
  InsertProduct.mk "Old Stock Soda" None 1500 None "Beverages" None None
    (Some 1) (Some 10) None None None (Some false).

Definition shopWithDiscontinued : MemStorage :=
  store_after (createProduct "p-9" noon discontinued) shop.

(** A second product carrying the barcode of the cola. *)
Definition lookalike : InsertProduct.t :=
  InsertProduct.mk "Cola 600ml (new label)" (Some "8901030001234") 2600 None
    "Beverages" None None (Some 12) None None None None (Some true).

(** The shop one day after a sale of four bottles for 100.00. *)
Definition yesterday : Timestamp := noon - Calendar.msPerDay.

Definition shopNextDay : MemStorage :=
  store_after
    (createTransaction (gen "t-") yesterday (sale [line cola 2500 4] 10000 "cash"))
    (newMemStorage (gen "seed-") yesterday).

(** Two bottles of cola at 25.00 each, a discount of 3.00, billed 47.00. *)
Definition checkout : InsertTransaction.t :=
  InsertTransaction.mk None [Item.mk cola "Coca Cola 600ml" 2500 2] 4700
    (Some 300) (Some 0) "upi" None None (Some "completed").

End Sample.

(** * Properties *)

(** ** Running the monad *)

Ltac unfold_store :=
  unfold outcome, store_after, mbind, mret, M_bind, M_ret, bind, ret,
    getStore, modify, throw in *.

Lemma or_number_0 (x : option Z) : JS.or_number x 0 = default 0 x.
Proof.
  destruct x as [v|]; simpl; [|reflexivity].
  destruct (Z.eqb_spec v 0); congruence.
Qed.

(** What [updateStock] does on a product that exists. *)
Lemma updateStock_found uuid now productId quantity s p :
  products s !! productId = Some p ->
  updateStock uuid now productId quantity s =
    (Return tt,
     set_inventoryMovements
       (insert uuid
          (InventoryMovement.mk uuid productId
             (if 0 <? quantity then "purchase" else "sale")
             (Z.abs quantity)
             (currentStock p)
             (Z.max 0 (currentStock p + quantity))
             (Some (if 0 <? quantity then "Stock added" else "Sale"))
             None (Some now)))
       (set_products
          (insert productId
             (with_stock p (Z.max 0 (currentStock p + quantity)) now))
          s)).
Proof.
  intros Hp. unfold updateStock, currentStock. unfold_store.
  rewrite Hp. rewrite or_number_0. reflexivity.
Qed.

(** What [updateStock] does on an identifier that resolves to nothing. *)
Lemma updateStock_missing uuid now productId quantity s :
  products s !! productId = None ->
  updateStock uuid now productId quantity s = (Throw "Product not found", s).
Proof.
  intros Hp. unfold updateStock. unfold_store. rewrite Hp. reflexivity.
Qed.

(** ** The stock ledger *)

(** C1.  On a product of the store, [updateStock] returns and leaves the
    product with stock [max 0 (current + delta)], every other product as
    it was; on an identifier that is not in the store it throws
    "Product not found" and the store is unchanged. *)
Theorem updateStock_sets_stock uuid now productId delta s :
  (forall p, products s !! productId = Some p ->
     outcome (updateStock uuid now productId delta) s = Return tt /\
     Product.stock <$>
       products (store_after (updateStock uuid now productId delta) s) !! productId
       = Some (Some (Z.max 0 (currentStock p + delta))) /\
     forall other, other <> productId ->
       products (store_after (updateStock uuid now productId delta) s) !! other
       = products s !! other)
  /\
  (products s !! productId = None ->
     outcome (updateStock uuid now productId delta) s = Throw "Product not found" /\
     store_after (updateStock uuid now productId delta) s = s).
Proof.
  split.
  - intros p Hp. unfold outcome, store_after.
    rewrite (updateStock_found _ _ _ _ _ _ Hp). simpl.
    split; [reflexivity|]. split.
    + rewrite lookup_insert_eq. reflexivity.
    + intros other Hne. rewrite lookup_insert_ne by congruence. reflexivity.
  - intros Hp. unfold outcome, store_after.
    rewrite (updateStock_missing _ _ _ _ _ Hp). split; reflexivity.
Qed.

Lemma updateStock_sets_stock_witness :
  (outcome (updateStock "m-1" Sample.noon Sample.cola (-50)) Sample.shop = Return tt /\
   Product.stock <$>
     products (store_after (updateStock "m-1" Sample.noon Sample.cola (-50)) Sample.shop)
       !! Sample.cola
     = Some (Some 0))
  /\
  (outcome (updateStock "m-1" Sample.noon "nope" 3) Sample.shop
     = Throw "Product not found" /\
   store_after (updateStock "m-1" Sample.noon "nope" 3) Sample.shop = Sample.shop).
Proof.
  split.
  - destruct (updateStock_sets_stock "m-1" Sample.noon Sample.cola (-50) Sample.shop)
      as [Hfound _].
    destruct (Hfound Sample.colaProduct eq_refl)
      as (Hret & Hstock & _).
    split; [exact Hret | exact Hstock].
  - destruct (updateStock_sets_stock "m-1" Sample.noon "nope" 3 Sample.shop)
      as [_ Hmissing].
    exact (Hmissing eq_refl).
Defined.

(** C2.  On a product of the store, and with a movement identifier that is
    not in use, one call of [updateStock] adds exactly one movement to the
    movements already recorded; its [previousStock] is the product's stock
    before the call, its [newStock] the product's stock after it, its
    [quantity] is [abs delta] and its [type] is "purchase" when
    [delta > 0] and "sale" otherwise. *)
Theorem updateStock_appends_one_movement uuid now productId delta s p :
  products s !! productId = Some p ->
  inventoryMovements s !! uuid = None ->
  exists s' p' m,
    updateStock uuid now productId delta s = (Return tt, s') /\
    products s' !! productId = Some p' /\
    inventoryMovements s' = <[uuid := m]> (inventoryMovements s) /\
    size (inventoryMovements s') = S (size (inventoryMovements s)) /\
    InventoryMovement.productId m = productId /\
    InventoryMovement.previousStock m = currentStock p /\
    InventoryMovement.newStock m = currentStock p' /\
    InventoryMovement.quantity m = Z.abs delta /\
    InventoryMovement.type m = (if 0 <? delta then "purchase" else "sale").
Proof.
  intros Hp Hfresh.
  eexists _, _, _. split; [apply (updateStock_found _ _ _ _ _ _ Hp)|].
  simpl. split; [apply lookup_insert_eq|].
  split; [reflexivity|].
  split; [apply map_size_insert_None, Hfresh|].
  repeat split; reflexivity.
Qed.

Lemma updateStock_appends_one_movement_witness :
  products Sample.shop !! Sample.cola = Some Sample.colaProduct /\
  inventoryMovements Sample.shop !! "m-1" = None /\
  exists s' p' m,
    updateStock "m-1" Sample.noon Sample.cola (-2) Sample.shop = (Return tt, s') /\
    products s' !! Sample.cola = Some p' /\
    inventoryMovements s' = <["m-1" := m]> (inventoryMovements Sample.shop) /\
    size (inventoryMovements s') = S (size (inventoryMovements Sample.shop)) /\
    InventoryMovement.productId m = Sample.cola /\
    InventoryMovement.previousStock m = 45 /\
    InventoryMovement.newStock m = currentStock p' /\
    InventoryMovement.quantity m = 2 /\
    InventoryMovement.type m = "sale".
Proof.
  split; [reflexivity|]. split; [reflexivity|].
  apply (updateStock_appends_one_movement "m-1" Sample.noon Sample.cola (-2)
           Sample.shop Sample.colaProduct); reflexivity.
Defined.

(** ** The loop over the items of a transaction *)

(** Fields [updateStock] never writes. *)
Lemma updateStock_frame uuid now productId quantity s :
  let s' := store_after (updateStock uuid now productId quantity) s in
  transactions s' = transactions s /\
  transactionCounter s' = transactionCounter s /\
  categories s' = categories s /\
  shopSettings s' = shopSettings s.
Proof.
  unfold store_after.
  destruct (products s !! productId) as [p|] eqn:Hp.
  - rewrite (updateStock_found _ _ _ _ _ _ Hp). simpl. auto.
  - rewrite (updateStock_missing _ _ _ _ _ Hp). simpl. auto.
Qed.

(** [updateStock] neither adds nor removes a product. *)
Lemma updateStock_same_ids uuid now productId quantity s id :
  products (store_after (updateStock uuid now productId quantity) s) !! id = None
  <-> products s !! id = None.
Proof.
  unfold store_after.
  destruct (products s !! productId) as [p|] eqn:Hp.
  - rewrite (updateStock_found _ _ _ _ _ _ Hp). simpl.
    destruct (decide (productId = id)) as [->|Hne].
    + rewrite lookup_insert_eq, Hp. split; discriminate.
    + rewrite lookup_insert_ne by assumption. reflexivity.
  - rewrite (updateStock_missing _ _ _ _ _ Hp). reflexivity.
Qed.

Lemma sellItems_cons gen k now item rest s :
  sellItems gen k now (item :: rest) s =
    match updateStock (gen k) now (Item.productId item) (- Item.quantity item) s with
    | (Return _, s1) => sellItems gen (S k) now rest s1
    | (Throw msg, s1) => (Throw msg, s1)
    end.
Proof. reflexivity. Qed.

Lemma allPresent_step uuid now productId quantity items s :
  allPresent items s ->
  allPresent items (store_after (updateStock uuid now productId quantity) s).
Proof.
  intros Hall item Hin. apply not_eq_None_Some.
  rewrite updateStock_same_ids. apply not_eq_None_Some. auto.
Qed.

(** When every item resolves, the loop runs to its end. *)
Lemma sellItems_returns gen now items :
  forall k s, allPresent items s ->
    exists s', sellItems gen k now items s = (Return tt, s') /\
      transactions s' = transactions s /\
      transactionCounter s' = transactionCounter s.
Proof.
  induction items as [|item rest IH]; intros k s Hall.
  - exists s. auto.
  - rewrite sellItems_cons.
    destruct (Hall item) as [p Hp]; [left|].
    pose proof (allPresent_step (gen k) now (Item.productId item)
                  (- Item.quantity item) rest s) as Hrest.
    unfold store_after in *.
    rewrite (updateStock_found _ _ _ _ _ _ Hp) in *. simpl in *.
    destruct (IH (S k) _ (Hrest (fun i Hi => Hall i (list_elem_of_further _ _ _ Hi))))
      as (s' & Hrun & Ht' & Hc').
    exists s'. split; [exact Hrun|]. rewrite Ht', Hc'. split; reflexivity.
Qed.

(** At the first item that does not resolve, the loop throws, in the store
    that selling the items before it has produced. *)
Lemma sellItems_stops gen now bad post pre :
  forall k s, allPresent pre s ->
    products s !! Item.productId bad = None ->
    exists s', sellItems gen k now pre s = (Return tt, s') /\
      sellItems gen k now (pre ++ bad :: post)%list s
        = (Throw "Product not found", s').
Proof.
  induction pre as [|item rest IH]; intros k s Hall Hbad.
  - exists s. split; [reflexivity|]. simpl app. rewrite sellItems_cons.
    rewrite (updateStock_missing _ _ _ _ _ Hbad). reflexivity.
  - simpl app. rewrite !sellItems_cons.
    destruct (Hall item) as [p Hp]; [left|].
    pose proof (allPresent_step (gen k) now (Item.productId item)
                  (- Item.quantity item) rest s) as Hrest.
    pose proof (updateStock_same_ids (gen k) now (Item.productId item)
                  (- Item.quantity item) s (Item.productId bad)) as Hsame.
    unfold store_after in *.
    rewrite (updateStock_found _ _ _ _ _ _ Hp) in *. simpl in *.
    apply IH.
    + apply Hrest. intros i Hi. apply Hall. right. exact Hi.
    + apply Hsame, Hbad.
Qed.

(** A list with an item that does not resolve splits at the first one. *)
Lemma first_missing items s :
  (exists item, item ∈ items /\ products s !! Item.productId item = None) ->
  exists pre bad post,
    items = (pre ++ bad :: post)%list /\ allPresent pre s /\
    products s !! Item.productId bad = None.
Proof.
  induction items as [|item rest IH]; intros (x & Hin & Hx).
  - inversion Hin.
  - destruct (products s !! Item.productId item) as [p|] eqn:Hp.
    + destruct IH as (pre & bad & post & -> & Hall & Hbad).
      { exists x. split; [|exact Hx].
        apply elem_of_cons in Hin as [->|Hin]; [congruence|exact Hin]. }
      exists (item :: pre), bad, post. split; [reflexivity|]. split; [|exact Hbad].
      intros i Hi. apply elem_of_cons in Hi as [->|Hi]; [eauto|auto].
    + exists [], item, rest. split; [reflexivity|]. split; [|exact Hp].
      intros i Hi. inversion Hi.
Qed.

(** With identifiers that are unused and pairwise distinct, a loop that
    returns has added one movement per item. *)
Lemma sellItems_movements gen now items :
  forall k s s',
    sellItems gen k now items s = (Return tt, s') ->
    (forall i j, (k <= i < j)%nat -> (j < k + length items)%nat -> gen i <> gen j) ->
    (forall j, (k <= j < k + length items)%nat ->
       inventoryMovements s !! gen j = None) ->
    size (inventoryMovements s') = (size (inventoryMovements s) + length items)%nat.
Proof.
  induction items as [|item rest IH]; intros k s s' Hrun Hdistinct Hfresh.
  - inversion Hrun; subst. simpl. lia.
  - rewrite sellItems_cons in Hrun.
    destruct (products s !! Item.productId item) as [p|] eqn:Hp.
    + rewrite (updateStock_found _ _ _ _ _ _ Hp) in Hrun.
      apply IH in Hrun.
      * rewrite Hrun. simpl.
        rewrite map_size_insert_None by (apply Hfresh; simpl; lia). lia.
      * intros i j Hij Hj. apply Hdistinct; simpl; lia.
      * intros j Hj. simpl.
        rewrite lookup_insert_ne by (apply Hdistinct; simpl; lia).
        apply Hfresh. simpl. lia.
    + rewrite (updateStock_missing _ _ _ _ _ Hp) in Hrun. discriminate.
Qed.

(** A product no item refers to comes out of the loop as it went in. *)
Lemma sellItems_other_products gen now id items :
  forall k s,
    (forall item, item ∈ items -> Item.productId item <> id) ->
    products (store_after (sellItems gen k now items) s) !! id = products s !! id.
Proof.
  induction items as [|item rest IH]; intros k s Hno.
  - reflexivity.
  - unfold store_after in *. rewrite sellItems_cons.
    destruct (products s !! Item.productId item) as [p|] eqn:Hp.
    + rewrite (updateStock_found _ _ _ _ _ _ Hp).
      rewrite IH by (intros i Hi; apply Hno; right; exact Hi).
      simpl. apply lookup_insert_ne, Hno. left.
    + rewrite (updateStock_missing _ _ _ _ _ Hp). reflexivity.
Qed.

(** ** Creating a transaction *)

Lemma createTransaction_run gen now ins s :
  createTransaction gen now ins s =
    match sellItems gen 1 now (InsertTransaction.items ins)
            (set_transactionCounter (S (transactionCounter s)) s) with
    | (Return _, s1) =>
        (Return (newTransaction gen now ins s),
         set_transactions (insert (gen 0%nat) (newTransaction gen now ins s)) s1)
    | (Throw msg, s1) => (Throw msg, s1)
    end.
Proof.
  unfold createTransaction, newTransaction. unfold_store. simpl.
  destruct (sellItems gen 1 now (InsertTransaction.items ins) _) as [[[]|msg] s1];
    reflexivity.
Qed.

(** Whether it returns or throws, the loop leaves the transactions and the
    counter alone. *)
Lemma sellItems_frame gen now items :
  forall k s,
    transactions (store_after (sellItems gen k now items) s) = transactions s /\
    transactionCounter (store_after (sellItems gen k now items) s)
      = transactionCounter s.
Proof.
  induction items as [|item rest IH]; intros k s.
  - split; reflexivity.
  - pose proof (updateStock_frame (gen k) now (Item.productId item)
                  (- Item.quantity item) s) as (Ht & Hc & _).
    unfold store_after in *. rewrite sellItems_cons.
    destruct (updateStock (gen k) now (Item.productId item) (- Item.quantity item) s)
      as [[[]|msg] s1]; simpl in *.
    + destruct (IH (S k) s1) as [Ht' Hc']. split; congruence.
    + split; assumption.
Qed.

(** The counter moves by one in every call, returned or thrown. *)
Lemma createTransaction_counter gen now ins s :
  transactionCounter (store_after (createTransaction gen now ins) s)
    = S (transactionCounter s).
Proof.
  unfold store_after. rewrite createTransaction_run.
  pose proof (sellItems_frame gen now (InsertTransaction.items ins) 1
                (set_transactionCounter (S (transactionCounter s)) s)) as [_ Hc].
  unfold store_after in Hc.
  destruct (sellItems gen 1 now (InsertTransaction.items ins) _) as [[[]|msg] s1];
    simpl in *; exact Hc.
Qed.

Lemma createTransaction_returns gen now ins s t s' :
  createTransaction gen now ins s = (Return t, s') ->
  t = newTransaction gen now ins s /\
  transactions s' !! gen 0%nat = Some t.
Proof.
  rewrite createTransaction_run.
  destruct (sellItems gen 1 now (InsertTransaction.items ins) _) as [[[]|msg] s1];
    intros H; inversion H; subst; clear H.
  split; [reflexivity|]. simpl. apply lookup_insert_eq.
Qed.

(** ** Transaction numbers *)

Lemma parse_repeat_zero k s :
  JS.parse_digits (JS.repeat_char "0" k s) = JS.parse_digits s.
Proof.
  induction k as [|k IH]; [reflexivity|].
  rewrite <- IH. unfold JS.parse_digits. simpl.
  destruct (NilEmpty.uint_of_string (JS.repeat_char "0" k s)); reflexivity.
Qed.

Lemma parse_String n : JS.parse_digits (JS.String_ n) = Some n.
Proof.
  unfold JS.parse_digits, JS.String_.
  rewrite NilEmpty.usu. simpl. f_equal. apply Unsigned.of_to.
Qed.

(** Distinct counter values print as distinct transaction numbers. *)
Lemma transactionNumberOf_inj m n :
  transactionNumberOf m = transactionNumberOf n -> m = n.
Proof.
  unfold transactionNumberOf. intros H.
  assert (Hpad : JS.padStart 4 "0" (JS.String_ m) = JS.padStart 4 "0" (JS.String_ n)).
  { cbn [String.append] in H. injection H as H. exact H. }
  apply (f_equal JS.parse_digits) in Hpad. unfold JS.padStart in Hpad.
  rewrite !parse_repeat_zero, !parse_String in Hpad. congruence.
Qed.

(** Only [createTransaction] moves the counter. *)
Lemma step_counter op s :
  transactionCounter (step op s) =
    if isCreateTransaction op then S (transactionCounter s)
    else transactionCounter s.
Proof.
  destruct op; simpl; try reflexivity.
  - unfold store_after, updateProduct. unfold_store.
    destruct (products s !! id); reflexivity.
  - apply updateStock_frame.
  - apply createTransaction_counter.
  - unfold store_after, updateShopSettings. unfold_store.
    destruct (shopSettings s); reflexivity.
Qed.

Lemma steps_counter ops :
  forall s,
    transactionCounter (steps ops s)
      = (transactionCounter s + createTransactionCalls ops)%nat.
Proof.
  unfold steps, createTransactionCalls.
  induction ops as [|op ops IH]; intros s; simpl.
  - lia.
  - rewrite IH, step_counter. destruct (isCreateTransaction op); simpl; lia.
Qed.

Lemma newMemStorage_counter gen now :
  transactionCounter (newMemStorage gen now) = 1%nat.
Proof. reflexivity. Qed.

(** ** The total of a transaction *)

(** C3, as the store has it.  [createTransaction] persists the
    [totalAmount] of its input as it stands, next to the items and the
    discount of the input; it computes and checks nothing.  The persisted
    total is therefore the sum over the transaction's own items of price
    times quantity, minus the discount, floored at 0, exactly when the
    total handed in is. *)
Theorem createTransaction_keeps_supplied_total gen now ins s t s' :
  createTransaction gen now ins s = (Return t, s') ->
  transactions s' !! Transaction.id t = Some t /\
  Transaction.items t = InsertTransaction.items ins /\
  Transaction.discount t = InsertTransaction.discount ins /\
  Transaction.totalAmount t = InsertTransaction.totalAmount ins /\
  (Transaction.totalAmount t
     = checkoutTotal (Transaction.items t) (Transaction.discount t)
   <-> InsertTransaction.totalAmount ins
         = checkoutTotal (InsertTransaction.items ins) (InsertTransaction.discount ins)).
Proof.
  intros Hrun. apply createTransaction_returns in Hrun as [-> Hstored].
  split; [exact Hstored|]. repeat (split; [reflexivity|]).
  simpl. reflexivity.
Qed.

Lemma createTransaction_keeps_supplied_total_witness :
  exists t s',
    createTransaction (Sample.gen "t-") Sample.noon Sample.checkout Sample.shop
      = (Return t, s') /\
    transactions s' !! "t-0" = Some t /\
    Transaction.totalAmount t = 4700 /\
    checkoutTotal (Transaction.items t) (Transaction.discount t) = 4700.
Proof.
  exists (newTransaction (Sample.gen "t-") Sample.noon Sample.checkout Sample.shop),
    (store_after (createTransaction (Sample.gen "t-") Sample.noon Sample.checkout)
       Sample.shop).
  split; [reflexivity|].
  pose proof (createTransaction_keeps_supplied_total (Sample.gen "t-") Sample.noon
                Sample.checkout Sample.shop
                (newTransaction (Sample.gen "t-") Sample.noon Sample.checkout Sample.shop)
                (store_after
                   (createTransaction (Sample.gen "t-") Sample.noon Sample.checkout)
                   Sample.shop)
                eq_refl)
    as (Hstored & _ & _ & Htotal & Hiff).
  split; [exact Hstored|]. split; [exact Htotal|].
  exact (eq_trans (eq_sym (proj2 Hiff eq_refl)) Htotal).
Defined.

(** C3 fails as stated: a transaction is persisted with total 0.01 while
    its own items add up to 20.00. *)
Lemma createTransaction_total_unchecked :
  exists t s',
    createTransaction (Sample.gen "t-") Sample.noon Sample.mispriced Sample.shop
      = (Return t, s') /\
    transactions s' !! "t-0" = Some t /\
    Transaction.totalAmount t = 1 /\
    checkoutTotal (Transaction.items t) (Transaction.discount t) = 2000.
Proof.
  exists (newTransaction (Sample.gen "t-") Sample.noon Sample.mispriced Sample.shop),
    (store_after (createTransaction (Sample.gen "t-") Sample.noon Sample.mispriced)
       Sample.shop).
  repeat split; reflexivity.
Qed.

(** ** When a transaction is refused *)

(** C4, as the store has it.  [createTransaction] fails exactly when some
    item refers to a product that is not in the store, with the error
    "Product not found", and then persists no transaction.  When every
    item resolves it returns and persists the transaction, whatever the
    quantities, the payment method and the [isActive] flags are, and also
    when there is no item at all. *)
Theorem createTransaction_refuses_only_missing_products gen now ins s :
  ((exists item, item ∈ InsertTransaction.items ins /\
                 products s !! Item.productId item = None) ->
   exists s',
     createTransaction gen now ins s = (Throw "Product not found", s') /\
     transactions s' = transactions s)
  /\
  (allPresent (InsertTransaction.items ins) s ->
   exists t s',
     createTransaction gen now ins s = (Return t, s') /\
     transactions s' !! Transaction.id t = Some t /\
     Transaction.items t = InsertTransaction.items ins /\
     Transaction.paymentMethod t = InsertTransaction.paymentMethod ins).
Proof.
  split.
  - intros Hmissing.
    apply (first_missing _ (set_transactionCounter (S (transactionCounter s)) s))
      in Hmissing as (pre & bad & post & Hitems & Hall & Hbad).
    destruct (sellItems_stops gen now bad post pre 1 _ Hall Hbad)
      as (s' & Hpre & Hthrow).
    exists s'. rewrite createTransaction_run, Hitems, Hthrow.
    split; [reflexivity|].
    pose proof (sellItems_frame gen now pre 1
                  (set_transactionCounter (S (transactionCounter s)) s)) as [Ht _].
    unfold store_after in Ht. rewrite Hpre in Ht. exact Ht.
  - intros Hall.
    destruct (sellItems_returns gen now (InsertTransaction.items ins) 1
                (set_transactionCounter (S (transactionCounter s)) s) Hall)
      as (s1 & Hrun & _).
    eexists _, _. rewrite createTransaction_run, Hrun.
    split; [reflexivity|]. simpl. split; [apply lookup_insert_eq|].
    split; reflexivity.
Qed.

Lemma createTransaction_refuses_only_missing_products_witness :
  (exists s',
     createTransaction (Sample.gen "t-") Sample.noon Sample.brokenSale Sample.shop
       = (Throw "Product not found", s') /\
     transactions s' = transactions Sample.shop)
  /\
  (exists t s',
     createTransaction (Sample.gen "t-") Sample.noon Sample.mispriced Sample.shop
       = (Return t, s') /\
     transactions s' !! Transaction.id t = Some t /\
     Transaction.items t = InsertTransaction.items Sample.mispriced /\
     Transaction.paymentMethod t = "cash").
Proof.
  destruct (createTransaction_refuses_only_missing_products (Sample.gen "t-")
              Sample.noon Sample.brokenSale Sample.shop) as [Hfail _].
  destruct (createTransaction_refuses_only_missing_products (Sample.gen "t-")
              Sample.noon Sample.mispriced Sample.shop) as [_ Hok].
  split.
  - apply Hfail. exists (Sample.line "nope" 100 1).
    split; [right; left | reflexivity].
  - apply Hok. intros item Hin.
    apply list_elem_of_singleton in Hin as ->. eexists. reflexivity.
Defined.

(** C4 fails as stated: with no item at all and the payment method
    "barter", [createTransaction] returns and persists the transaction. *)
Lemma createTransaction_accepts_empty_cart :
  InsertTransaction.items Sample.emptySale = [] /\
  InsertTransaction.paymentMethod Sample.emptySale = "barter" /\
  exists t s',
    createTransaction (Sample.gen "t-") Sample.noon Sample.emptySale Sample.shop
      = (Return t, s') /\
    transactions s' !! "t-0" = Some t.
Proof.
  split; [reflexivity|]. split; [reflexivity|].
  exists (newTransaction (Sample.gen "t-") Sample.noon Sample.emptySale Sample.shop),
    (store_after (createTransaction (Sample.gen "t-") Sample.noon Sample.emptySale)
       Sample.shop).
  split; reflexivity.
Qed.

(** ** A sale that stops half-way *)

Lemma sellItems_stock gen now id items :
  forall k s s' p,
    sellItems gen k now items s = (Return tt, s') ->
    products s !! id = Some p ->
    exists p', products s' !! id = Some p' /\
               currentStock p' = soldStock id items (currentStock p).
Proof.
  induction items as [|item rest IH]; intros k s s' p Hrun Hp.
  - inversion Hrun; subst. exists p. split; [exact Hp | reflexivity].
  - rewrite sellItems_cons in Hrun.
    destruct (products s !! Item.productId item) as [q|] eqn:Hq.
    + rewrite (updateStock_found _ _ _ _ _ _ Hq) in Hrun.
      unfold soldStock. cbn [foldl].
      destruct (decide (Item.productId item = id)) as [Heq|Hne].
      * rewrite Heq in *. assert (q = p) as -> by congruence.
        eapply IH in Hrun as (p' & Hp' & Hstock).
        2:{ simpl. apply lookup_insert_eq. }
        exists p'. split; [exact Hp'|]. rewrite Hstock. unfold soldStock.
        f_equal.
      * eapply IH in Hrun as (p' & Hp' & Hstock).
        2:{ simpl. rewrite lookup_insert_ne by exact Hne. exact Hp. }
        exists p'. split; [exact Hp' | exact Hstock].
    + rewrite (updateStock_missing _ _ _ _ _ Hq) in Hrun. discriminate.
Qed.

(** C6.  When the item at the first position whose product is not in the
    store is reached, [createTransaction] throws "Product not found" and
    persists no transaction, while the store keeps what selling the items
    before that position has done to it: each product's stock is what the
    sales of those items leave, and, with fresh identifiers, one movement
    per such item has been added. *)
Theorem createTransaction_not_atomic gen now ins s pre bad post :
  InsertTransaction.items ins = (pre ++ bad :: post)%list ->
  allPresent pre s ->
  products s !! Item.productId bad = None ->
  exists s',
    createTransaction gen now ins s = (Throw "Product not found", s') /\
    transactions s' = transactions s /\
    sellItems gen 1 now pre (set_transactionCounter (S (transactionCounter s)) s)
      = (Return tt, s') /\
    (forall id p, products s !! id = Some p ->
       exists p', products s' !! id = Some p' /\
                  currentStock p' = soldStock id pre (currentStock p)) /\
    ((forall i j, (1 <= i < j)%nat -> (j < 1 + length pre)%nat -> gen i <> gen j) ->
     (forall j, (1 <= j < 1 + length pre)%nat -> inventoryMovements s !! gen j = None) ->
     size (inventoryMovements s') = (size (inventoryMovements s) + length pre)%nat).
Proof.
  intros Hitems Hall Hbad.
  destruct (sellItems_stops gen now bad post pre 1
              (set_transactionCounter (S (transactionCounter s)) s) Hall Hbad)
    as (s' & Hpre & Hthrow).
  exists s'. rewrite createTransaction_run, Hitems, Hthrow.
  split; [reflexivity|]. split.
  { pose proof (sellItems_frame gen now pre 1
                  (set_transactionCounter (S (transactionCounter s)) s)) as [Ht _].
    unfold store_after in Ht. rewrite Hpre in Ht. exact Ht. }
  split; [exact Hpre|]. split.
  - intros id p Hp. exact (sellItems_stock gen now id pre 1 _ s' p Hpre Hp).
  - intros Hdistinct Hfresh.
    exact (sellItems_movements gen now pre 1 _ s' Hpre Hdistinct Hfresh).
Qed.

Lemma createTransaction_not_atomic_witness :
  exists s',
    createTransaction (Sample.gen "t-") Sample.noon Sample.brokenSale Sample.shop
      = (Throw "Product not found", s') /\
    transactions s' = transactions Sample.shop /\
    (exists p', products s' !! Sample.cola = Some p' /\ currentStock p' = 43) /\
    size (inventoryMovements s') = 1%nat.
Proof.
  destruct (createTransaction_not_atomic (Sample.gen "t-") Sample.noon
              Sample.brokenSale Sample.shop
              [Sample.line Sample.cola 2500 2] (Sample.line "nope" 100 1) [])
    as (s' & Hthrow & Ht & _ & Hstock & Hsize).
  - reflexivity.
  - intros item Hin. apply list_elem_of_singleton in Hin as ->.
    exists Sample.colaProduct. reflexivity.
  - reflexivity.
  - exists s'. split; [exact Hthrow|]. split; [exact Ht|]. split.
    + exact (Hstock Sample.cola Sample.colaProduct eq_refl).
    + apply Hsize.
      * intros i j Hij Hj. simpl in Hj. lia.
      * intros j Hj. simpl in Hj. assert (j = 1%nat) as -> by lia. reflexivity.
Defined.

(** ** Transaction numbers across calls *)

(** C7, as the store has it.  The number a transaction receives is "TXN"
    followed by k padded with zeros to four digits, where the call that
    creates it is the k-th call of [createTransaction] since the store was
    constructed, the calls that threw included: every call moves the
    counter by one.  Numbers of later calls are numbers of larger
    counters, and two different counters never print alike. *)
Theorem transactionNumber_counts_calls seed t0 before gen now ins :
  let s := steps before (newMemStorage seed t0) in
  transactionCounter s = S (createTransactionCalls before) /\
  transactionCounter (store_after (createTransaction gen now ins) s)
    = S (transactionCounter s) /\
  (forall t s', createTransaction gen now ins s = (Return t, s') ->
     Transaction.transactionNumber t
       = transactionNumberOf (S (createTransactionCalls before))) /\
  (forall m n, (m < n)%nat -> transactionNumberOf m <> transactionNumberOf n).
Proof.
  intros s. subst s.
  assert (Hcount : transactionCounter (steps before (newMemStorage seed t0))
                   = S (createTransactionCalls before)).
  { rewrite steps_counter, newMemStorage_counter. reflexivity. }
  split; [exact Hcount|]. split; [apply createTransaction_counter|]. split.
  - intros t s' Hrun. apply createTransaction_returns in Hrun as [-> _].
    simpl. rewrite Hcount. reflexivity.
  - intros m n Hlt Heq. apply transactionNumberOf_inj in Heq. lia.
Qed.

Lemma transactionNumber_counts_calls_witness :
  exists t s',
    createTransaction (Sample.gen "t-") Sample.noon Sample.mispriced
      (steps Sample.refusedFirst (newMemStorage (Sample.gen "seed-") Sample.noon))
      = (Return t, s') /\
    Transaction.transactionNumber t = "TXN0002" /\
    transactionCounter s' = 3%nat.
Proof.
  pose proof (transactionNumber_counts_calls (Sample.gen "seed-") Sample.noon
                Sample.refusedFirst (Sample.gen "t-") Sample.noon Sample.mispriced)
    as (_ & Hnext & Hnumber & _).
  exists (newTransaction (Sample.gen "t-") Sample.noon Sample.mispriced
            (steps Sample.refusedFirst (newMemStorage (Sample.gen "seed-") Sample.noon))),
    (store_after (createTransaction (Sample.gen "t-") Sample.noon Sample.mispriced)
       (steps Sample.refusedFirst (newMemStorage (Sample.gen "seed-") Sample.noon))).
  assert (Hrun :
    createTransaction (Sample.gen "t-") Sample.noon Sample.mispriced
      (steps Sample.refusedFirst (newMemStorage (Sample.gen "seed-") Sample.noon))
    = (Return (newTransaction (Sample.gen "t-") Sample.noon Sample.mispriced
                 (steps Sample.refusedFirst
                    (newMemStorage (Sample.gen "seed-") Sample.noon))),
       store_after (createTransaction (Sample.gen "t-") Sample.noon Sample.mispriced)
         (steps Sample.refusedFirst (newMemStorage (Sample.gen "seed-") Sample.noon))))
    by (vm_compute; reflexivity).
  split; [exact Hrun|]. split.
  - exact (Hnumber _ _ Hrun).
  - rewrite Hnext. vm_compute. reflexivity.
Defined.

(** C7 fails as stated: after one refused call, the first transaction that
    is created receives "TXN0002". *)
Lemma first_transaction_numbered_two :
  let s0 := newMemStorage (Sample.gen "seed-") Sample.noon in
  let s1 := store_after (createTransaction (Sample.gen "a-") Sample.noon Sample.brokenSale) s0 in
  outcome (createTransaction (Sample.gen "a-") Sample.noon Sample.brokenSale) s0
    = Throw "Product not found" /\
  transactions s1 = ∅ /\
  Transaction.transactionNumber <$>
    outcome_value (createTransaction (Sample.gen "b-") Sample.noon Sample.emptySale) s1
    = Some "TXN0002" /\
  size (transactions
          (store_after (createTransaction (Sample.gen "b-") Sample.noon Sample.emptySale) s1))
    = 1%nat.
Proof.
  vm_compute. repeat split; reflexivity.
Qed.

(** ** Who writes the stock *)

Lemma createTransaction_products gen now ins s :
  products (store_after (createTransaction gen now ins) s) =
  products (store_after (sellItems gen 1 now (InsertTransaction.items ins))
              (set_transactionCounter (S (transactionCounter s)) s)).
Proof.
  unfold store_after. rewrite createTransaction_run.
  destruct (sellItems gen 1 now (InsertTransaction.items ins) _) as [[[]|msg] s1];
    reflexivity.
Qed.

Lemma step_keeps_stock op s id p p' :
  products s !! id = Some p ->
  products (step op s) !! id = Some p' ->
  Product.stock p' <> Product.stock p ->
  mayChangeStock op id.
Proof.
  intros Hp Hp' Hchanged.
  destruct op as [uuid now ins | pid upd now | pid | uuid now pid q
                 | gen now ins | uuid now c | uuid now m | upd now];
    simpl in *.
  - destruct (decide (uuid = id)) as [Heq|Hne]; [exact Heq|].
    unfold store_after, createProduct in Hp'. unfold_store. simpl in Hp'.
    rewrite lookup_insert_ne in Hp' by exact Hne. congruence.
  - unfold store_after, updateProduct in Hp'. unfold_store.
    destruct (products s !! pid) as [existing|] eqn:Hexisting; simpl in Hp'.
    + destruct (decide (pid = id)) as [Heq|Hne].
      * split; [exact Heq|]. subst pid.
        rewrite lookup_insert_eq in Hp'. injection Hp' as <-.
        simpl in Hchanged.
        destruct (PartialProduct.stock upd) as [v|]; [eauto|].
        simpl in Hchanged. congruence.
      * rewrite lookup_insert_ne in Hp' by exact Hne. congruence.
    + congruence.
  - unfold store_after, deleteProduct in Hp'. unfold_store. simpl in Hp'.
    destruct (decide (pid = id)) as [Heq|Hne].
    + subst pid. rewrite lookup_delete_eq in Hp'. discriminate.
    + rewrite lookup_delete_ne in Hp' by exact Hne. congruence.
  - destruct (decide (pid = id)) as [Heq|Hne]; [exact Heq|].
    unfold store_after in Hp'.
    destruct (products s !! pid) as [q0|] eqn:Hq.
    + rewrite (updateStock_found _ _ _ _ _ _ Hq) in Hp'. simpl in Hp'.
      rewrite lookup_insert_ne in Hp' by exact Hne. congruence.
    + rewrite (updateStock_missing _ _ _ _ _ Hq) in Hp'. simpl in Hp'. congruence.
  - destruct (decide (Exists (fun item => Item.productId item = id)
                        (InsertTransaction.items ins))) as [Hex|Hno].
    + apply Exists_exists in Hex as (item & Hin & Heq). eauto.
    + rewrite createTransaction_products in Hp'.
      rewrite sellItems_other_products in Hp'.
      * simpl in Hp'. congruence.
      * intros item Hin Heq. apply Hno, Exists_exists. eauto.
  - unfold store_after, createCategory in Hp'. unfold_store. simpl in Hp'.
    congruence.
  - unfold store_after, createInventoryMovement in Hp'. unfold_store.
    simpl in Hp'. congruence.
  - unfold store_after, updateShopSettings in Hp'. unfold_store.
    destruct (shopSettings s); simpl in Hp'; congruence.
Qed.

(** C5, as the store has it.  The stock of a stored product differs after
    a call only if the call is [updateStock] on it, [createTransaction]
    with an item of it, [updateProduct] of it with a [stock] field, or
    [createProduct] storing under its identifier.  [updateProduct] with a
    [stock] field stores that value as the product's stock, and
    [createProduct] stores the stock it is given; neither adds an
    inventory movement. *)
Theorem stock_writers :
  (forall op s id p p',
     products s !! id = Some p ->
     products (step op s) !! id = Some p' ->
     Product.stock p' <> Product.stock p ->
     mayChangeStock op id)
  /\
  (forall id upd now s p v,
     products s !! id = Some p ->
     PartialProduct.stock upd = Some v ->
     Product.stock <$> products (step (OpUpdateProduct id upd now) s) !! id = Some v /\
     inventoryMovements (step (OpUpdateProduct id upd now) s) = inventoryMovements s)
  /\
  (forall uuid now ins s,
     Product.stock <$> products (step (OpCreateProduct uuid now ins) s) !! uuid
       = Some (InsertProduct.stock ins) /\
     inventoryMovements (step (OpCreateProduct uuid now ins) s) = inventoryMovements s).
Proof.
  split; [exact step_keeps_stock|]. split.
  - intros id upd now s p v Hp Hv. simpl.
    unfold store_after, updateProduct. unfold_store. rewrite Hp. simpl.
    rewrite lookup_insert_eq, Hv. split; reflexivity.
  - intros uuid now ins s. simpl.
    unfold store_after, createProduct. unfold_store. simpl.
    rewrite lookup_insert_eq. split; reflexivity.
Qed.

Lemma stock_writers_witness :
  mayChangeStock (OpUpdateProduct Sample.cola Sample.recount Sample.noon) Sample.cola /\
  Product.stock <$>
    products (step (OpUpdateProduct Sample.cola Sample.recount Sample.noon) Sample.shop)
      !! Sample.cola
    = Some (Some 999).
Proof.
  destruct stock_writers as (Honly & Hupdate & _).
  destruct (Hupdate Sample.cola Sample.recount Sample.noon Sample.shop
              Sample.colaProduct (Some 999) eq_refl eq_refl) as [Hstock _].
  split; [|exact Hstock].
  apply (Honly _ Sample.shop Sample.cola Sample.colaProduct
           (with_stock Sample.colaProduct 999 Sample.noon)).
  - reflexivity.
  - vm_compute. reflexivity.
  - discriminate.
Defined.

(** C5 fails as stated: [updateProduct] takes the stock of the cola from
    45 to 999 and no movement is recorded. *)
Lemma updateProduct_sets_stock_without_movement :
  let s' := step (OpUpdateProduct Sample.cola Sample.recount Sample.noon) Sample.shop in
  Product.stock <$> products Sample.shop !! Sample.cola = Some (Some 45) /\
  Product.stock <$> products s' !! Sample.cola = Some (Some 999) /\
  inventoryMovements s' = inventoryMovements Sample.shop /\
  size (inventoryMovements s') = 0%nat.
Proof.
  vm_compute. repeat split; reflexivity.
Qed.

(** ** Low stock *)

Lemma lowStockItems_unfold tz now period s :
  lowStockItems (getSalesAnalytics tz now period s) =
    length
      (filter
         (fun p =>
            JS.or_number (Product.stock p) 0 < JS.or_number (Product.minStock p) 5)
         (getProducts s)).
Proof. reflexivity. Qed.

Lemma or_number_default x d :
  x <> Some 0 -> JS.or_number x d = default d x.
Proof.
  intros Hx. destruct x as [v|]; simpl; [|reflexivity].
  destruct (Z.eqb_spec v 0); congruence.
Qed.

Lemma filter_low_stock (l : list Product.t) :
  (forall p, p ∈ l -> Product.minStock p <> Some 0) ->
  filter
    (fun p => JS.or_number (Product.stock p) 0 < JS.or_number (Product.minStock p) 5)
    l
  = List.filter belowMinStock l.
Proof.
  induction l as [|p rest IH]; intros Hmin; [reflexivity|].
  rewrite filter_cons. simpl List.filter.
  rewrite IH by (intros q Hq; apply Hmin; right; exact Hq).
  rewrite or_number_0, (or_number_default _ 5) by (apply Hmin; left).
  destruct (belowMinStock p) eqn:Hbelow; unfold belowMinStock in Hbelow;
    case_decide; first [reflexivity | exfalso; lia].
Qed.

(** C9, as the store has it.  Over a catalogue in which no product has a
    [minStock] of 0, [lowStockItems] is the number of products, active or
    not, whose stock (0 when unset) is strictly below their [minStock]
    (5 when unset); the period plays no part. *)
Theorem lowStockItems_counts_every_product tz now period s :
  (forall p, p ∈ getProducts s -> Product.minStock p <> Some 0) ->
  lowStockItems (getSalesAnalytics tz now period s)
    = length (List.filter belowMinStock (getProducts s)).
Proof.
  intros Hmin. rewrite lowStockItems_unfold, filter_low_stock by exact Hmin.
  reflexivity.
Qed.

Lemma lowStockItems_counts_every_product_witness :
  lowStockItems (getSalesAnalytics 0 Sample.noon weekly Sample.shopWithDiscontinued)
    = 3%nat.
Proof.
  rewrite lowStockItems_counts_every_product.
  - vm_compute. reflexivity.
  - intros p Hp. assert (Hall : Forall (fun p => Product.minStock p <> Some 0)
                                  (getProducts Sample.shopWithDiscontinued)).
    { vm_compute. repeat constructor; discriminate. }
    rewrite Forall_forall in Hall. apply Hall, Hp.
Defined.

(** C9 fails as stated: the discontinued product is inactive and is
    counted all the same, three where the specification counts two. *)
Lemma lowStockItems_counts_inactive :
  lowStockItems (getSalesAnalytics 0 Sample.noon daily Sample.shopWithDiscontinued)
    = 3%nat /\
  length (List.filter lowStockSpec (getProducts Sample.shopWithDiscontinued)) = 2%nat /\
  Product.isActive <$> products Sample.shopWithDiscontinued !! "p-9" = Some (Some false).
Proof.
  vm_compute. repeat split; reflexivity.
Qed.

(** ** Barcodes *)

(** C10 on the store as it is: with the cola in the catalogue,
    [createProduct] of a product carrying the cola's barcode returns, the
    catalogue grows from four to five products, and two of them carry
    that barcode. *)
Theorem createProduct_accepts_duplicate_barcode :
  let s' := store_after (createProduct "p-9" Sample.noon Sample.lookalike) Sample.shop in
  Product.barcode <$> products Sample.shop !! Sample.cola = Some (Some "8901030001234") /\
  InsertProduct.barcode Sample.lookalike = Some "8901030001234" /\
  Product.id <$>
    outcome_value (createProduct "p-9" Sample.noon Sample.lookalike) Sample.shop
    = Some "p-9" /\
  size (products Sample.shop) = 4%nat /\
  size (products s') = 5%nat /\
  Product.barcode <$> products s' !! Sample.cola = Some (Some "8901030001234") /\
  Product.barcode <$> products s' !! "p-9" = Some (Some "8901030001234").
Proof.
  vm_compute. repeat split; reflexivity.
Qed.

(** ** The sales trend *)

Lemma salesTrend_length tz now period s :
  length (salesTrend (getSalesAnalytics tz now period s)) = 7%nat.
Proof. reflexivity. Qed.

(** C8 on the store as it is: one sale of 100.00 was made yesterday.  The
    trend has its seven days, oldest first; with the period [weekly]
    yesterday's entry is 100.00, with the period [daily] it is 0, while
    the transactions of yesterday add up to 100.00. *)
Theorem salesTrend_depends_on_period :
  let trend period := salesTrend (getSalesAnalytics 0 Sample.noon period Sample.shopNextDay) in
  date <$> trend daily =
    ["2026-10-28"; "2026-10-29"; "2026-10-30"; "2026-10-31";
     "2026-11-01"; "2026-11-02"; "2026-11-03"] /\
  amount <$> trend weekly = [0; 0; 0; 0; 0; 10000; 0] /\
  amount <$> trend daily = [0; 0; 0; 0; 0; 0; 0] /\
  sumTotalAmount
    (onDayOf 0 Sample.yesterday (snd <$> map_to_list (transactions Sample.shopNextDay)))
    = 10000.
Proof.
  vm_compute. repeat split; reflexivity.
Qed.

(** * Further properties of the store *)

Ltac simpl_store :=
  unfold set_products, set_transactions, set_categories, set_inventoryMovements,
    set_shopSettings, set_transactionCounter in *;
  simpl in *.

Lemma elem_of_getProducts p s :
  p ∈ getProducts s <-> exists id, products s !! id = Some p.
Proof.
  unfold getProducts. rewrite list_elem_of_fmap. split.
  - intros ([id q] & -> & Hin). exists id.
    apply elem_of_map_to_list in Hin. exact Hin.
  - intros (id & Hp). exists (id, p). split; [reflexivity|].
    apply elem_of_map_to_list. exact Hp.
Qed.

Lemma store_eta s :
  mkStorage (products s) (transactions s) (categories s) (inventoryMovements s)
    (shopSettings s) (transactionCounter s) = s.
Proof. destruct s. reflexivity. Qed.

(** ** Records and their identifiers *)

Lemma newMemStorage_keyed gen now : keyedById (newMemStorage gen now).
Proof.
  unfold keyedById, newMemStorage, seedData. simpl. repeat split.
  - intros k p H.
    repeat (apply lookup_insert_Some in H as [[<- <-]|[_ H]]; [reflexivity|]).
    rewrite lookup_empty in H. discriminate.
  - intros k t H. rewrite lookup_empty in H. discriminate.
  - intros k c H.
    repeat (apply lookup_insert_Some in H as [[<- <-]|[_ H]]; [reflexivity|]).
    rewrite lookup_empty in H. discriminate.
  - intros k m H. rewrite lookup_empty in H. discriminate.
Qed.

Lemma updateStock_keyed uuid now productId quantity s :
  keyedById s -> keyedById (store_after (updateStock uuid now productId quantity) s).
Proof.
  unfold keyedById. intros (Hp & Ht & Hc & Hm). unfold store_after.
  destruct (products s !! productId) as [p|] eqn:Hlookup.
  - rewrite (updateStock_found _ _ _ _ _ _ Hlookup). simpl_store.
    repeat split; try assumption.
    + intros k q H. apply lookup_insert_Some in H as [[<- <-]|[_ H]].
      * simpl. apply Hp, Hlookup.
      * apply Hp, H.
    + intros k m H. apply lookup_insert_Some in H as [[<- <-]|[_ H]].
      * reflexivity.
      * apply Hm, H.
  - rewrite (updateStock_missing _ _ _ _ _ Hlookup). simpl.
    repeat split; assumption.
Qed.

Lemma sellItems_keyed gen now items :
  forall k s, keyedById s -> keyedById (store_after (sellItems gen k now items) s).
Proof.
  induction items as [|item rest IH]; intros k s Hs; [exact Hs|].
  pose proof (updateStock_keyed (gen k) now (Item.productId item)
                (- Item.quantity item) s Hs) as Hnext.
  unfold store_after in *. rewrite sellItems_cons.
  destruct (updateStock (gen k) now (Item.productId item) (- Item.quantity item) s)
    as [[[]|msg] s1]; simpl in *.
  - apply IH, Hnext.
  - exact Hnext.
Qed.

Lemma step_keyed op s : keyedById s -> keyedById (step op s).
Proof.
  intros Hs.
  assert (Hstock := updateStock_keyed).
  assert (Hsell := sellItems_keyed).
  unfold keyedById in *.
  destruct op as [uuid now ins | pid upd now | pid | uuid now pid q
                 | gen now ins | uuid now c | uuid now m | upd now]; simpl.
  - destruct Hs as (Hp & Ht & Hc & Hm).
    unfold store_after, createProduct. unfold_store. simpl_store.
    repeat split; try assumption.
    intros k p H. apply lookup_insert_Some in H as [[<- <-]|[_ H]];
      [reflexivity | apply Hp, H].
  - destruct Hs as (Hp & Ht & Hc & Hm).
    unfold store_after, updateProduct. unfold_store.
    destruct (products s !! pid) as [existing|] eqn:Hexisting; simpl_store.
    + repeat split; try assumption.
      intros k p H. apply lookup_insert_Some in H as [[<- <-]|[_ H]].
      * simpl. apply Hp, Hexisting.
      * apply Hp, H.
    + repeat split; assumption.
  - destruct Hs as (Hp & Ht & Hc & Hm).
    unfold store_after, deleteProduct. unfold_store. simpl_store.
    repeat split; try assumption.
    intros k p H. apply lookup_delete_Some in H as [_ H]. apply Hp, H.
  - apply Hstock, Hs.
  - unfold store_after. rewrite createTransaction_run.
    pose proof (Hsell gen now (InsertTransaction.items ins) 1%nat
                  (set_transactionCounter (S (transactionCounter s)) s) Hs)
      as Hsold.
    unfold store_after in Hsold.
    destruct (sellItems gen 1 now (InsertTransaction.items ins) _) as [[[]|msg] s1];
      simpl in *; [|exact Hsold].
    destruct Hsold as (Hp & Ht & Hc & Hm). simpl_store.
    repeat split; try assumption.
    intros k t H. apply lookup_insert_Some in H as [[<- <-]|[_ H]];
      [reflexivity | apply Ht, H].
  - destruct Hs as (Hp & Ht & Hc & Hm).
    unfold store_after, createCategory. unfold_store. simpl_store.
    repeat split; try assumption.
    intros k x H. apply lookup_insert_Some in H as [[<- <-]|[_ H]];
      [reflexivity | apply Hc, H].
  - destruct Hs as (Hp & Ht & Hc & Hm).
    unfold store_after, createInventoryMovement. unfold_store. simpl_store.
    repeat split; try assumption.
    intros k x H. apply lookup_insert_Some in H as [[<- <-]|[_ H]];
      [reflexivity | apply Hm, H].
  - destruct Hs as (Hp & Ht & Hc & Hm).
    unfold store_after, updateShopSettings. unfold_store.
    destruct (shopSettings s); simpl_store; repeat split; assumption.
Qed.

(** X1.  Whatever calls have been made since the store was constructed,
    every product, transaction, category and movement is stored under
    the identifier it carries in its [id] field. *)
Theorem records_keyed_by_their_id gen now ops :
  keyedById (steps ops (newMemStorage gen now)).
Proof.
  unfold steps.
  assert (Hgen : forall s, keyedById s -> keyedById (foldl (fun acc op => step op acc) s ops)).
  { induction ops as [|op rest IH]; intros s Hs; simpl; [exact Hs|].
    apply IH, step_keyed, Hs. }
  apply Hgen, newMemStorage_keyed.
Qed.

(** ** What each call may touch *)

Lemma steps_invariant (I : MemStorage -> Prop) (allowed : Op -> Prop) :
  (forall op s, allowed op -> I s -> I (step op s)) ->
  forall ops s, Forall allowed ops -> I s -> I (steps ops s).
Proof.
  intros Hstep ops. unfold steps.
  induction ops as [|op rest IH]; intros s Hall Hs; simpl; [exact Hs|].
  inversion Hall; subst. apply IH; [assumption|]. apply Hstep; assumption.
Qed.

Lemma sellItems_same_ids gen now id items :
  forall k s,
    products (store_after (sellItems gen k now items) s) !! id = None
    <-> products s !! id = None.
Proof.
  induction items as [|item rest IH]; intros k s; [reflexivity|].
  pose proof (updateStock_same_ids (gen k) now (Item.productId item)
                (- Item.quantity item) s id) as Hone.
  unfold store_after in *. rewrite sellItems_cons.
  destruct (updateStock (gen k) now (Item.productId item) (- Item.quantity item) s)
    as [[[]|msg] s1]; simpl in *.
  - rewrite IH. exact Hone.
  - exact Hone.
Qed.

(** X2.  Only [createProduct] storing under an identifier and
    [deleteProduct] of an identifier decide whether the store holds a
    product under it: after any other call, [updateStock],
    [updateProduct] and [createTransaction] included, the identifier
    resolves exactly when it did before. *)
Theorem product_ids_change_only_by_create_and_delete op s id :
  ~ addsOrRemovesProduct op id ->
  (products (step op s) !! id = None <-> products s !! id = None).
Proof.
  intros Hop.
  destruct op as [uuid now ins | pid upd now | pid | uuid now pid q
                 | gen now ins | uuid now c | uuid now m | upd now];
    simpl in *.
  - unfold store_after, createProduct. unfold_store. simpl_store.
    rewrite lookup_insert_ne by exact Hop. reflexivity.
  - unfold store_after, updateProduct. unfold_store.
    destruct (products s !! pid) as [existing|] eqn:Hexisting; simpl_store;
      [|reflexivity].
    destruct (decide (pid = id)) as [<-|Hne].
    + rewrite lookup_insert_eq, Hexisting. split; discriminate.
    + rewrite lookup_insert_ne by exact Hne. reflexivity.
  - unfold store_after, deleteProduct. unfold_store. simpl_store.
    rewrite lookup_delete_ne by exact Hop. reflexivity.
  - apply updateStock_same_ids.
  - rewrite createTransaction_products. rewrite sellItems_same_ids. reflexivity.
  - reflexivity.
  - reflexivity.
  - unfold store_after, updateShopSettings. unfold_store.
    destruct (shopSettings s); reflexivity.
Qed.

Lemma product_ids_change_only_by_create_and_delete_witness :
  products
    (step (OpCreateTransaction (Sample.gen "t-") Sample.noon Sample.brokenSale) Sample.shop)
    !! "nope" = None
  <-> products Sample.shop !! "nope" = None.
Proof.
  apply product_ids_change_only_by_create_and_delete. simpl. tauto.
Defined.

Lemma sellItems_movements_other gen now key items :
  forall k s,
    (forall i, (k <= i < k + length items)%nat -> gen i <> key) ->
    inventoryMovements (store_after (sellItems gen k now items) s) !! key
      = inventoryMovements s !! key.
Proof.
  induction items as [|item rest IH]; intros k s Hkey; [reflexivity|].
  unfold store_after in *. rewrite sellItems_cons.
  destruct (products s !! Item.productId item) as [p|] eqn:Hp.
  - rewrite (updateStock_found _ _ _ _ _ _ Hp).
    rewrite IH by (intros i Hi; apply Hkey; simpl; lia).
    simpl_store. apply lookup_insert_ne, Hkey. simpl. lia.
  - rewrite (updateStock_missing _ _ _ _ _ Hp). reflexivity.
Qed.

Lemma size_insert_ge {A} (m : gmap string A) k v : (size m <= size (<[k:=v]> m))%nat.
Proof. rewrite map_size_insert. destruct (m !! k); simpl; lia. Qed.

Lemma updateStock_movements_grow uuid now productId quantity s :
  (size (inventoryMovements s)
   <= size (inventoryMovements (store_after (updateStock uuid now productId quantity) s)))%nat.
Proof.
  unfold store_after.
  destruct (products s !! productId) as [p|] eqn:Hp.
  - rewrite (updateStock_found _ _ _ _ _ _ Hp). simpl_store. apply size_insert_ge.
  - rewrite (updateStock_missing _ _ _ _ _ Hp). simpl. apply Nat.le_refl.
Qed.

Lemma sellItems_movements_grow gen now items :
  forall k s,
    (size (inventoryMovements s)
     <= size (inventoryMovements (store_after (sellItems gen k now items) s)))%nat.
Proof.
  induction items as [|item rest IH]; intros k s; [apply Nat.le_refl|].
  pose proof (updateStock_movements_grow (gen k) now (Item.productId item)
                (- Item.quantity item) s) as Hone.
  unfold store_after in *. rewrite sellItems_cons.
  destruct (updateStock (gen k) now (Item.productId item) (- Item.quantity item) s)
    as [[[]|msg] s1]; simpl in *.
  - etrans; [exact Hone | apply IH].
  - exact Hone.
Qed.

Lemma createTransaction_movements gen now ins s :
  inventoryMovements (store_after (createTransaction gen now ins) s) =
  inventoryMovements (store_after (sellItems gen 1 now (InsertTransaction.items ins))
                        (set_transactionCounter (S (transactionCounter s)) s)).
Proof.
  unfold store_after. rewrite createTransaction_run.
  destruct (sellItems gen 1 now (InsertTransaction.items ins) _) as [[[]|msg] s1];
    reflexivity.
Qed.

(** X3.  The history is append-only.  A call leaves every transaction
    alone except the one it writes itself under its first draw, and
    every movement alone except those it writes under its own draws;
    no call makes the transactions or the movements fewer. *)
Theorem history_is_append_only op s :
  (forall k, ~ writesTransaction op k ->
     transactions (step op s) !! k = transactions s !! k) /\
  (forall k, ~ writesMovement op k ->
     inventoryMovements (step op s) !! k = inventoryMovements s !! k) /\
  (size (transactions s) <= size (transactions (step op s)))%nat /\
  (size (inventoryMovements s) <= size (inventoryMovements (step op s)))%nat.
Proof.
  destruct op as [uuid now ins | pid upd now | pid | uuid now pid q
                 | gen now ins | uuid now c | uuid now m | upd now];
    simpl.
  - unfold store_after, createProduct. unfold_store. simpl_store.
    repeat split; intros; first [reflexivity | apply Nat.le_refl].
  - unfold store_after, updateProduct. unfold_store.
    destruct (products s !! pid); simpl_store;
      repeat split; intros; first [reflexivity | apply Nat.le_refl].
  - unfold store_after, deleteProduct. unfold_store. simpl_store.
    repeat split; intros; first [reflexivity | apply Nat.le_refl].
  - pose proof (updateStock_frame uuid now pid q s) as (Ht & _).
    pose proof (updateStock_movements_grow uuid now pid q s) as Hgrow.
    simpl in Ht. rewrite Ht. split; [|split; [|split]].
    + intros; reflexivity.
    + intros k Hk. unfold store_after.
      destruct (products s !! pid) as [p|] eqn:Hp.
      * rewrite (updateStock_found _ _ _ _ _ _ Hp). simpl_store.
        apply lookup_insert_ne, Hk.
      * rewrite (updateStock_missing _ _ _ _ _ Hp). reflexivity.
    + apply Nat.le_refl.
    + exact Hgrow.
  - rewrite createTransaction_movements.
    pose proof (sellItems_frame gen now (InsertTransaction.items ins) 1
                  (set_transactionCounter (S (transactionCounter s)) s)) as [Ht _].
    split; [|split; [|split]].
    + intros k Hk. unfold store_after in *. rewrite createTransaction_run.
      destruct (sellItems gen 1 now (InsertTransaction.items ins) _) as [[[]|msg] s1];
        simpl_store.
      * rewrite lookup_insert_ne by exact Hk. rewrite Ht. reflexivity.
      * rewrite Ht. reflexivity.
    + intros k Hk. rewrite sellItems_movements_other; [reflexivity|].
      intros i Hi Heq. apply Hk. exists i. split; [lia | exact Heq].
    + unfold store_after in *. rewrite createTransaction_run.
      destruct (sellItems gen 1 now (InsertTransaction.items ins) _) as [[[]|msg] s1];
        simpl_store.
      * rewrite <- Ht. apply size_insert_ge.
      * rewrite Ht. apply Nat.le_refl.
    + apply (sellItems_movements_grow gen now (InsertTransaction.items ins) 1
               (set_transactionCounter (S (transactionCounter s)) s)).
  - unfold store_after, createCategory. unfold_store. simpl_store.
    repeat split; intros; first [reflexivity | apply Nat.le_refl].
  - unfold store_after, createInventoryMovement. unfold_store. simpl_store.
    split; [|split; [|split]].
    + intros; reflexivity.
    + intros k Hk. apply lookup_insert_ne, Hk.
    + apply Nat.le_refl.
    + apply size_insert_ge.
  - unfold store_after, updateShopSettings. unfold_store.
    destruct (shopSettings s); simpl_store;
      repeat split; intros; first [reflexivity | apply Nat.le_refl].
Qed.

(** ** Deleting a product *)

(** X4.  [deleteProduct] never throws.  Afterwards the identifier
    resolves to nothing and [updateStock] on it throws "Product not
    found"; the other products, the movements and the transactions are
    as before, those of the deleted product included; deleting an
    identifier the store does not hold changes nothing. *)
Theorem deleteProduct_forgets_the_product_only id s :
  let s' := store_after (deleteProduct id) s in
  outcome (deleteProduct id) s = Return tt /\
  getProduct id s' = None /\
  (forall other, other <> id -> getProduct other s' = getProduct other s) /\
  inventoryMovements s' = inventoryMovements s /\
  transactions s' = transactions s /\
  (forall uuid now quantity,
     updateStock uuid now id quantity s' = (Throw "Product not found", s')) /\
  (products s !! id = None -> s' = s).
Proof.
  unfold store_after, outcome, deleteProduct, getProduct. unfold_store. simpl_store.
  split; [reflexivity|]. split; [apply lookup_delete_eq|].
  split; [intros other Hne; apply lookup_delete_ne; congruence|].
  split; [reflexivity|]. split; [reflexivity|]. split.
  - intros uuid now quantity. apply updateStock_missing. simpl.
    apply lookup_delete_eq.
  - intros Hmissing. rewrite delete_id by exact Hmissing. apply store_eta.
Qed.

Lemma deleteProduct_forgets_the_product_only_witness :
  store_after (deleteProduct "nope") Sample.shop = Sample.shop.
Proof.
  apply (deleteProduct_forgets_the_product_only "nope" Sample.shop). reflexivity.
Defined.

Lemma history_is_append_only_witness :
  transactions
    (step (OpCreateTransaction (Sample.gen "t-") Sample.noon Sample.mispriced)
       Sample.shopNextDay) !! "t-9"
  = transactions Sample.shopNextDay !! "t-9".
Proof.
  apply (history_is_append_only
           (OpCreateTransaction (Sample.gen "t-") Sample.noon Sample.mispriced)
           Sample.shopNextDay).
  simpl. discriminate.
Defined.

(** ** Looking a product up by its barcode *)

Lemma getProductByBarcode_Some barcode s p :
  getProductByBarcode barcode s = Some p ->
  Product.barcode p = Some barcode /\ exists id, products s !! id = Some p.
Proof.
  unfold getProductByBarcode. intros Hfind.
  destruct (list_find _ _) as [[i q]|] eqn:Hq; [|discriminate].
  injection Hfind as <-. apply list_find_Some in Hq as (Hi & Hb & _).
  split; [exact Hb|]. apply elem_of_getProducts.
  apply list_elem_of_lookup. eauto.
Qed.

Lemma getProductByBarcode_None barcode s :
  getProductByBarcode barcode s = None <->
  forall id p, products s !! id = Some p -> Product.barcode p <> Some barcode.
Proof.
  unfold getProductByBarcode.
  rewrite fmap_None, list_find_None, Forall_forall. split.
  - intros Hnone id p Hp. apply Hnone, elem_of_getProducts. eauto.
  - intros Hnone p Hin. apply elem_of_getProducts in Hin as (id & Hp). eauto.
Qed.

(** X5.  [getProductByBarcode] finds nothing exactly when no product of
    the store carries the barcode; what it finds is a product of the
    store carrying it, and when only one product carries it, that one.
    A product without a barcode is never found. *)
Theorem getProductByBarcode_sound_and_complete barcode s :
  (getProductByBarcode barcode s = None <->
   forall id p, products s !! id = Some p -> Product.barcode p <> Some barcode) /\
  (forall p, getProductByBarcode barcode s = Some p ->
     Product.barcode p = Some barcode /\ exists id, products s !! id = Some p) /\
  (forall id p,
     products s !! id = Some p -> Product.barcode p = Some barcode ->
     (forall id' p', products s !! id' = Some p' ->
        Product.barcode p' = Some barcode -> p' = p) ->
     getProductByBarcode barcode s = Some p).
Proof.
  split; [apply getProductByBarcode_None|].
  split; [apply getProductByBarcode_Some|].
  intros id p Hp Hb Honly.
  destruct (getProductByBarcode barcode s) as [q|] eqn:Hq.
  - f_equal. apply getProductByBarcode_Some in Hq as (Hqb & id' & Hq').
    exact (Honly id' q Hq' Hqb).
  - exfalso. rewrite getProductByBarcode_None in Hq. exact (Hq id p Hp Hb).
Qed.

Lemma getProductByBarcode_sound_and_complete_witness :
  getProductByBarcode "8901030001234" Sample.shop = Some Sample.colaProduct.
Proof.
  apply (getProductByBarcode_sound_and_complete "8901030001234" Sample.shop)
    with (id := Sample.cola).
  - reflexivity.
  - reflexivity.
  - intros id' p' Hp' Hb.
    assert (Hin : p' ∈ getProducts Sample.shop) by (apply elem_of_getProducts; eauto).
    revert Hb.
    assert (Hall : Forall (fun q => Product.barcode q = Some "8901030001234" ->
                                    q = Sample.colaProduct)
                     (getProducts Sample.shop)).
    { vm_compute. repeat constructor; first [discriminate | reflexivity]. }
    rewrite Forall_forall in Hall. apply Hall, Hin.
Defined.

(** X6.  A product handed to [createProduct] can be read back: the call
    returns, [getProduct] on the identifier drawn gives the product
    returned, which carries that identifier, every one of the thirteen
    fields handed in, and the instant of the call as [createdAt] and
    [updatedAt]; every other identifier resolves as before, and a
    barcode handed in is found by [getProductByBarcode]; when the
    identifier is new the catalogue has one product more. *)
Theorem createProduct_then_read uuid now ins s :
  exists p s',
    createProduct uuid now ins s = (Return p, s') /\
    getProduct uuid s' = Some p /\
    Product.id p = uuid /\
    Product.name p = InsertProduct.name ins /\
    Product.barcode p = InsertProduct.barcode ins /\
    Product.price p = InsertProduct.price ins /\
    Product.costPrice p = InsertProduct.costPrice ins /\
    Product.category p = InsertProduct.category ins /\
    Product.brand p = InsertProduct.brand ins /\
    Product.description p = InsertProduct.description ins /\
    Product.stock p = InsertProduct.stock ins /\
    Product.minStock p = InsertProduct.minStock ins /\
    Product.maxStock p = InsertProduct.maxStock ins /\
    Product.unit p = InsertProduct.unit ins /\
    Product.expiryDate p = InsertProduct.expiryDate ins /\
    Product.isActive p = InsertProduct.isActive ins /\
    Product.createdAt p = Some now /\
    Product.updatedAt p = Some now /\
    (forall other, other <> uuid -> getProduct other s' = getProduct other s) /\
    (forall barcode, InsertProduct.barcode ins = Some barcode ->
       exists found, getProductByBarcode barcode s' = Some found /\
                     Product.barcode found = Some barcode) /\
    (products s !! uuid = None ->
       length (getProducts s') = S (length (getProducts s))).
Proof.
  eexists _, _. split; [reflexivity|]. unfold getProduct. simpl_store.
  split; [apply lookup_insert_eq|]. repeat (split; [reflexivity|]).
  split; [intros other Hne; apply lookup_insert_ne; congruence|]. split.
  - intros barcode Hb.
    match goal with
    | |- exists found, getProductByBarcode barcode ?st = Some found /\ _ =>
        destruct (getProductByBarcode barcode st) as [found|] eqn:Hfound
    end.
    + exists found. split; [reflexivity|].
      apply getProductByBarcode_Some in Hfound. apply Hfound.
    + exfalso. rewrite getProductByBarcode_None in Hfound.
      eapply (Hfound uuid); [simpl; apply lookup_insert_eq | exact Hb].
  - intros Hfresh. unfold getProducts. simpl.
    rewrite !length_fmap, !length_map_to_list.
    apply map_size_insert_None, Hfresh.
Qed.

(** ** Stock is not driven below zero *)

Lemma updateStock_nonneg uuid now productId quantity s :
  nonNegativeStock s ->
  nonNegativeStock (store_after (updateStock uuid now productId quantity) s).
Proof.
  intros Hs. unfold store_after.
  destruct (products s !! productId) as [p|] eqn:Hp.
  - rewrite (updateStock_found _ _ _ _ _ _ Hp). unfold nonNegativeStock. simpl_store.
    intros id q H. apply lookup_insert_Some in H as [[<- <-]|[_ H]].
    + unfold currentStock. simpl. lia.
    + apply (Hs id q H).
  - rewrite (updateStock_missing _ _ _ _ _ Hp). exact Hs.
Qed.

Lemma sellItems_nonneg gen now items :
  forall k s, nonNegativeStock s ->
    nonNegativeStock (store_after (sellItems gen k now items) s).
Proof.
  induction items as [|item rest IH]; intros k s Hs; [exact Hs|].
  pose proof (updateStock_nonneg (gen k) now (Item.productId item)
                (- Item.quantity item) s Hs) as Hnext.
  unfold store_after in *. rewrite sellItems_cons.
  destruct (updateStock (gen k) now (Item.productId item) (- Item.quantity item) s)
    as [[[]|msg] s1]; simpl in *.
  - apply IH, Hnext.
  - exact Hnext.
Qed.

Lemma step_nonneg op s :
  writesNoNegativeStock op -> nonNegativeStock s -> nonNegativeStock (step op s).
Proof.
  intros Hop Hs.
  destruct op as [uuid now ins | pid upd now | pid | uuid now pid q
                 | gen now ins | uuid now c | uuid now m | upd now];
    simpl in *.
  - unfold store_after, createProduct, nonNegativeStock. unfold_store. simpl_store.
    intros id p H. apply lookup_insert_Some in H as [[<- <-]|[_ H]];
      [exact Hop | apply (Hs id p H)].
  - unfold store_after, updateProduct, nonNegativeStock. unfold_store.
    destruct (products s !! pid) as [existing|] eqn:Hexisting; simpl_store;
      [|exact Hs].
    intros id p H. apply lookup_insert_Some in H as [[<- <-]|[_ H]];
      [|apply (Hs id p H)].
    unfold currentStock. simpl.
    destruct (PartialProduct.stock upd) as [v|]; simpl; [exact Hop|].
    apply (Hs pid existing Hexisting).
  - unfold store_after, deleteProduct, nonNegativeStock. unfold_store. simpl_store.
    intros id p H. apply lookup_delete_Some in H as [_ H]. apply (Hs id p H).
  - apply updateStock_nonneg, Hs.
  - unfold nonNegativeStock. rewrite createTransaction_products.
    apply (sellItems_nonneg gen now (InsertTransaction.items ins) 1
             (set_transactionCounter (S (transactionCounter s)) s)), Hs.
  - exact Hs.
  - exact Hs.
  - unfold store_after, updateShopSettings. unfold_store.
    destruct (shopSettings s); exact Hs.
Qed.

Lemma newMemStorage_nonneg gen now : nonNegativeStock (newMemStorage gen now).
Proof.
  unfold nonNegativeStock, newMemStorage, seedData. simpl. intros id p H.
  repeat (apply lookup_insert_Some in H as [[<- <-]|[_ H]];
          [unfold currentStock; simpl; lia|]).
  rewrite lookup_empty in H. discriminate.
Qed.

(** X7.  Stock is never negative through the ledger: over any history of
    calls in which [createProduct] and [updateProduct] are handed no
    negative stock, no product of the store ever has a negative stock,
    however large the quantities that [updateStock] and
    [createTransaction] take off. *)
Theorem stock_never_negative gen now ops :
  Forall writesNoNegativeStock ops ->
  nonNegativeStock (steps ops (newMemStorage gen now)).
Proof.
  intros Hops.
  apply (steps_invariant nonNegativeStock writesNoNegativeStock step_nonneg);
    [exact Hops | apply newMemStorage_nonneg].
Qed.

Lemma stock_never_negative_witness :
  nonNegativeStock
    (steps [OpUpdateStock "m-1" Sample.noon Sample.cola (-500);
            OpCreateTransaction (Sample.gen "t-") Sample.noon Sample.brokenSale]
       (newMemStorage (Sample.gen "seed-") Sample.noon)).
Proof.
  apply stock_never_negative. repeat constructor.
Defined.

(** ** What a sale does to the stock *)

Lemma quantityOf_nonneg id items :
  (forall item, item ∈ items -> 0 <= Item.quantity item) ->
  0 <= quantityOf id items.
Proof.
  induction items as [|item rest IH]; intros Hq; simpl; [lia|].
  assert (0 <= quantityOf id rest)
    by (apply IH; intros i Hi; apply Hq; right; exact Hi).
  assert (0 <= Item.quantity item) by (apply Hq; left).
  unfold quantityOf in *. case_decide; lia.
Qed.

Lemma soldStock_floor id items :
  forall st,
    (forall item, item ∈ items -> 0 <= Item.quantity item) ->
    0 <= st ->
    soldStock id items st = Z.max 0 (st - quantityOf id items).
Proof.
  induction items as [|item rest IH]; intros st Hq Hst.
  - unfold soldStock, quantityOf. simpl. lia.
  - assert (Hrest : forall i, i ∈ rest -> 0 <= Item.quantity i)
      by (intros i Hi; apply Hq; right; exact Hi).
    assert (0 <= Item.quantity item) by (apply Hq; left).
    pose proof (quantityOf_nonneg id rest Hrest) as Hnonneg.
    unfold soldStock in *. cbn [foldl]. unfold quantityOf in *. cbn [foldr].
    destruct (decide (Item.productId item = id)).
    + rewrite IH by (assumption || lia). lia.
    + rewrite IH by assumption. lia.
Qed.

(** X8.  A sale that goes through takes off each product the quantity
    sold of it, floored at zero: when the quantities are not negative and
    the product's stock is not negative, the stock after
    [createTransaction] is [max 0 (stock - quantity sold)], the quantity
    sold being the sum over the items of that product; within the
    available stock it is exactly [stock - quantity sold]. *)
Theorem sale_takes_quantity_sold gen now ins s t s' id p :
  createTransaction gen now ins s = (Return t, s') ->
  products s !! id = Some p ->
  (forall item, item ∈ InsertTransaction.items ins -> 0 <= Item.quantity item) ->
  0 <= currentStock p ->
  exists p',
    products s' !! id = Some p' /\
    currentStock p' =
      Z.max 0 (currentStock p - quantityOf id (InsertTransaction.items ins)) /\
    (quantityOf id (InsertTransaction.items ins) <= currentStock p ->
     currentStock p' = currentStock p - quantityOf id (InsertTransaction.items ins)).
Proof.
  intros Hrun Hp Hq Hstock.
  assert (Hproducts := createTransaction_products gen now ins s).
  unfold store_after in Hproducts. rewrite Hrun in Hproducts. simpl in Hproducts.
  rewrite createTransaction_run in Hrun.
  destruct (sellItems gen 1 now (InsertTransaction.items ins) _)
    as [[[]|msg] s1] eqn:Hsell; [|discriminate].
  destruct (sellItems_stock gen now id _ 1 _ s1 p Hsell Hp) as (p' & Hp' & Hsold).
  exists p'. rewrite Hproducts. simpl. split; [exact Hp'|].
  rewrite Hsold, (soldStock_floor id _ _ Hq Hstock).
  split; [reflexivity | intros; lia].
Qed.

Lemma sale_takes_quantity_sold_witness :
  exists p',
    products
      (store_after (createTransaction (Sample.gen "t-") Sample.noon Sample.mispriced)
         Sample.shop) !! Sample.cola = Some p' /\
    currentStock p' = 43.
Proof.
  destruct (sale_takes_quantity_sold (Sample.gen "t-") Sample.noon Sample.mispriced
              Sample.shop
              (newTransaction (Sample.gen "t-") Sample.noon Sample.mispriced Sample.shop)
              (store_after
                 (createTransaction (Sample.gen "t-") Sample.noon Sample.mispriced)
                 Sample.shop)
              Sample.cola Sample.colaProduct)
    as (p' & Hp' & Hstock & _).
  - vm_compute. reflexivity.
  - reflexivity.
  - intros item Hin. apply list_elem_of_singleton in Hin as ->. simpl. lia.
  - unfold currentStock. simpl. lia.
  - exists p'. split; [exact Hp' | exact Hstock].
Defined.

(** ** The movements of a sale *)

Lemma sellItems_movement_of_item gen now items :
  forall k s s',
    sellItems gen k now items s = (Return tt, s') ->
    (forall i j, (k <= i < j)%nat -> (j < k + length items)%nat -> gen i <> gen j) ->
    forall j item, items !! j = Some item ->
      exists m,
        inventoryMovements s' !! gen (k + j)%nat = Some m /\
        InventoryMovement.productId m = Item.productId item /\
        InventoryMovement.quantity m = Z.abs (Item.quantity item) /\
        InventoryMovement.type m
          = (if Item.quantity item <? 0 then "purchase" else "sale") /\
        InventoryMovement.newStock m
          = Z.max 0 (InventoryMovement.previousStock m - Item.quantity item) /\
        InventoryMovement.transactionId m = None.
Proof.
  induction items as [|item rest IH]; intros k s s' Hrun Hdistinct j x Hj.
  - rewrite lookup_nil in Hj. discriminate.
  - rewrite sellItems_cons in Hrun.
    destruct (products s !! Item.productId item) as [p|] eqn:Hp.
    2:{ rewrite (updateStock_missing _ _ _ _ _ Hp) in Hrun. discriminate. }
    rewrite (updateStock_found _ _ _ _ _ _ Hp) in Hrun.
    destruct j as [|j]; simpl in Hj.
    + injection Hj as <-.
      assert (Hlater : forall i, (S k <= i < S k + length rest)%nat -> gen i <> gen k)
        by (intros i Hi; apply not_eq_sym, Hdistinct; simpl; lia).
      match type of Hrun with
      | sellItems _ _ _ _ ?st = _ =>
          pose proof (sellItems_movements_other gen now (gen k) rest (S k) st Hlater)
            as Hkept
      end.
      unfold store_after in Hkept. rewrite Hrun in Hkept. simpl_store.
      rewrite lookup_insert_eq in Hkept.
      eexists. rewrite Nat.add_0_r. split; [exact Hkept|]. simpl.
      rewrite Z.abs_opp.
      repeat split; try reflexivity.
      destruct (Z.ltb_spec 0 (- Item.quantity item)),
        (Z.ltb_spec (Item.quantity item) 0); first [reflexivity | lia].
    + replace (k + S j)%nat with (S k + j)%nat by lia.
      eapply IH; [exact Hrun | | exact Hj].
      intros i i' Hi Hi'. apply Hdistinct; simpl; lia.
Qed.

(** X9.  A sale that goes through, with identifiers that are unused and
    pairwise distinct, records one movement per item and no other: the
    movement of the item at position [j] is stored under the draw
    [j + 1], carries the item's product and the size of its quantity, is
    of type "sale" unless the quantity is negative (then "purchase"),
    has [newStock = max 0 (previousStock - quantity)], and never carries
    a [transactionId]. *)
Theorem sale_records_one_movement_per_item gen now ins s t s' :
  createTransaction gen now ins s = (Return t, s') ->
  (forall i j, (1 <= i < j)%nat ->
     (j < 1 + length (InsertTransaction.items ins))%nat -> gen i <> gen j) ->
  (forall j, (1 <= j < 1 + length (InsertTransaction.items ins))%nat ->
     inventoryMovements s !! gen j = None) ->
  size (inventoryMovements s')
    = (size (inventoryMovements s) + length (InsertTransaction.items ins))%nat /\
  forall j item, InsertTransaction.items ins !! j = Some item ->
    exists m,
      inventoryMovements s' !! gen (S j) = Some m /\
      InventoryMovement.productId m = Item.productId item /\
      InventoryMovement.quantity m = Z.abs (Item.quantity item) /\
      InventoryMovement.type m
        = (if Item.quantity item <? 0 then "purchase" else "sale") /\
      InventoryMovement.newStock m
        = Z.max 0 (InventoryMovement.previousStock m - Item.quantity item) /\
      InventoryMovement.transactionId m = None.
Proof.
  intros Hrun Hdistinct Hfresh.
  assert (Hmovements := createTransaction_movements gen now ins s).
  unfold store_after in Hmovements. rewrite Hrun in Hmovements. simpl in Hmovements.
  rewrite createTransaction_run in Hrun.
  destruct (sellItems gen 1 now (InsertTransaction.items ins) _)
    as [[[]|msg] s1] eqn:Hsell; [|discriminate].
  simpl in Hmovements. rewrite Hmovements. split.
  - exact (sellItems_movements gen now _ 1 _ s1 Hsell Hdistinct Hfresh).
  - intros j item Hj.
    exact (sellItems_movement_of_item gen now _ 1 _ s1 Hsell Hdistinct j item Hj).
Qed.

Lemma sale_records_one_movement_per_item_witness :
  size (inventoryMovements
          (store_after (createTransaction (Sample.gen "t-") Sample.noon Sample.mispriced)
             Sample.shop)) = 1%nat.
Proof.
  apply (sale_records_one_movement_per_item (Sample.gen "t-") Sample.noon
           Sample.mispriced Sample.shop
           (newTransaction (Sample.gen "t-") Sample.noon Sample.mispriced Sample.shop)
           (store_after
              (createTransaction (Sample.gen "t-") Sample.noon Sample.mispriced)
              Sample.shop)).
  - vm_compute. reflexivity.
  - intros i j Hij Hj. simpl in Hj. lia.
  - intros j Hj. simpl in Hj. assert (j = 1%nat) as -> by lia. reflexivity.
Defined.

(** ** Movements follow one another *)

(** X10.  Two adjustments of one product in a row, under distinct
    identifiers, leave two movements of which the second starts where the
    first ended: its [previousStock] is the first one's [newStock], and
    its [newStock] is the stock the product is left with. *)
Theorem consecutive_movements_chain uuid1 uuid2 now1 now2 productId delta1 delta2 s p :
  products s !! productId = Some p ->
  uuid1 <> uuid2 ->
  exists s1 s2 m1 m2 p2,
    updateStock uuid1 now1 productId delta1 s = (Return tt, s1) /\
    updateStock uuid2 now2 productId delta2 s1 = (Return tt, s2) /\
    inventoryMovements s2 !! uuid1 = Some m1 /\
    inventoryMovements s2 !! uuid2 = Some m2 /\
    InventoryMovement.previousStock m1 = currentStock p /\
    InventoryMovement.previousStock m2 = InventoryMovement.newStock m1 /\
    InventoryMovement.newStock m2
      = Z.max 0 (Z.max 0 (currentStock p + delta1) + delta2) /\
    products s2 !! productId = Some p2 /\
    currentStock p2 = InventoryMovement.newStock m2.
Proof.
  intros Hp Hne.
  eexists _, _, _, _, _.
  split; [apply (updateStock_found _ _ _ _ _ _ Hp)|].
  split; [apply updateStock_found; simpl; apply lookup_insert_eq|].
  simpl_store.
  split; [rewrite lookup_insert_ne by congruence; apply lookup_insert_eq|].
  split; [apply lookup_insert_eq|].
  split; [reflexivity|]. split; [reflexivity|]. split; [reflexivity|].
  split; [apply lookup_insert_eq | reflexivity].
Qed.

Lemma consecutive_movements_chain_witness :
  exists p2,
    products
      (store_after (updateStock "m-2" Sample.noon Sample.cola 3)
         (store_after (updateStock "m-1" Sample.noon Sample.cola (-50)) Sample.shop))
      !! Sample.cola = Some p2 /\
    currentStock p2 = 3.
Proof.
  destruct (consecutive_movements_chain "m-1" "m-2" Sample.noon Sample.noon
              Sample.cola (-50) 3 Sample.shop Sample.colaProduct eq_refl)
    as (s1 & s2 & m1 & m2 & p2 & H1 & H2 & _ & _ & _ & _ & Hnew & Hp2 & Hstock).
  - discriminate.
  - exists p2. unfold store_after. rewrite H1. simpl. rewrite H2. simpl.
    split; [exact Hp2|]. rewrite Hstock, Hnew. reflexivity.
Defined.

(** ** Analytics over the transactions *)

Lemma elem_of_transactions t s :
  t ∈ snd <$> map_to_list (transactions s) <-> exists k, transactions s !! k = Some t.
Proof.
  rewrite list_elem_of_fmap. split.
  - intros ([k x] & -> & Hin). exists k. apply elem_of_map_to_list in Hin. exact Hin.
  - intros (k & Hk). exists (k, t). split; [reflexivity|].
    apply elem_of_map_to_list. exact Hk.
Qed.

Lemma filter_within {A} (P Q : A -> Prop) `{forall x, Decision (P x)}
    `{forall x, Decision (Q x)} (l : list A) :
  (forall x, x ∈ l -> P x -> Q x) ->
  filter P (filter Q l) = filter P l.
Proof.
  induction l as [|x rest IH]; intros Himpl; [reflexivity|].
  assert (Hrest : filter P (filter Q rest) = filter P rest)
    by (apply IH; intros y Hy; apply Himpl; right; exact Hy).
  rewrite (filter_cons Q). destruct (decide (Q x)) as [HQ|HQ].
  - rewrite !filter_cons, Hrest. reflexivity.
  - rewrite Hrest, filter_cons. destruct (decide (P x)) as [HP|HP]; [|reflexivity].
    exfalso. apply HQ, Himpl; [left | exact HP].
Qed.

Lemma day_bounds a :
  Calendar.msPerDay * (a / Calendar.msPerDay) <= a
  < Calendar.msPerDay * (a / Calendar.msPerDay) + Calendar.msPerDay.
Proof.
  pose proof (Z.div_mod a Calendar.msPerDay ltac:(discriminate)) as Hdm.
  pose proof (Z.mod_pos_bound a Calendar.msPerDay ltac:(reflexivity)) as Hb.
  lia.
Qed.

Lemma day_shift a i :
  (a - i * 24 * 60 * 60 * 1000) / Calendar.msPerDay = a / Calendar.msPerDay - i.
Proof.
  replace (a - i * 24 * 60 * 60 * 1000) with (a + (- i) * Calendar.msPerDay)
    by (unfold Calendar.msPerDay; lia).
  rewrite Z.div_add by discriminate. lia.
Qed.

(** The day of the month is at least 1. *)
Lemma civil_day_positive day :
  let '(_, _, d) := Calendar.civil day in 1 <= d.
Proof.
  unfold Calendar.civil. cbv zeta.
  set (doy := _ - (365 * _ + _ / 4 - _ / 100)).
  pose proof (Z.mul_div_le (5 * doy + 2) 153 ltac:(reflexivity)) as Hmp.
  assert ((153 * ((5 * doy + 2) / 153) + 2) / 5 < doy + 1).
  { apply Z.div_lt_upper_bound; lia. }
  lia.
Qed.

Lemma startOfMonth_le_startOfDay tz now :
  Calendar.startOfMonth tz now <= Calendar.startOfDay tz now.
Proof.
  unfold Calendar.startOfMonth, Calendar.startOfDay.
  pose proof (civil_day_positive (Calendar.toDateString tz now)) as Hd.
  destruct (Calendar.civil (Calendar.toDateString tz now)) as [[y m] d].
  unfold Calendar.msPerDay. nia.
Qed.

(** A transaction of one of the last seven local days, not from the
    future, lies in every window that reaches back far enough. *)
Lemma same_day_in_window tz now i t :
  0 <= i <= 6 ->
  t <= now ->
  Calendar.toDateString tz t
    = Calendar.toDateString tz (now - i * 24 * 60 * 60 * 1000) ->
  now - 7 * 24 * 60 * 60 * 1000 <= t /\
  (i = 0 -> Calendar.startOfDay tz now <= t).
Proof.
  unfold Calendar.toDateString, Calendar.startOfDay. intros Hi Hle Hday.
  replace (now - i * 24 * 60 * 60 * 1000 + tz)
    with (now + tz - i * 24 * 60 * 60 * 1000) in Hday by lia.
  rewrite day_shift in Hday.
  pose proof (day_bounds (t + tz)) as Ht.
  pose proof (day_bounds (now + tz)) as Hn.
  rewrite Hday in Ht. unfold Calendar.toDateString.
  set (q := (now + tz) / Calendar.msPerDay) in *. clearbody q. clear Hday.
  unfold Calendar.msPerDay in *. split; [lia|].
  intros ->. lia.
Qed.

Lemma today_in_every_window tz now period s :
  noneFromTheFuture now s ->
  onDayOf tz now (getTransactionsByDateRange (windowStart tz period now) now s)
    = onDayOf tz now (snd <$> map_to_list (transactions s)).
Proof.
  intros Hpast. unfold onDayOf, getTransactionsByDateRange.
  apply filter_within. intros t Hin Hday. cbv zeta in *.
  apply elem_of_transactions in Hin as (k & Hk).
  pose proof (Hpast k t Hk) as Hle.
  replace now with (now - 0 * 24 * 60 * 60 * 1000) in Hday at 1 by lia.
  destruct (same_day_in_window tz now 0 _ ltac:(lia) Hle Hday) as [Hweek Hdaily].
  split; [|exact Hle].
  destruct period; simpl.
  - apply Hdaily. reflexivity.
  - exact Hweek.
  - etrans; [apply startOfMonth_le_startOfDay | apply Hdaily; reflexivity].
Qed.

(** X11.  [dailySales] does not depend on the period: provided no
    transaction is dated after [now], it is, for [daily], [weekly] and
    [monthly] alike, the sum of [totalAmount] over all the transactions
    of the store created on the local calendar day of [now]. *)
Theorem dailySales_is_todays_total tz now period s :
  noneFromTheFuture now s ->
  dailySales (getSalesAnalytics tz now period s)
    = sumTotalAmount (onDayOf tz now (snd <$> map_to_list (transactions s))).
Proof.
  intros Hpast. unfold getSalesAnalytics. simpl.
  rewrite today_in_every_window by exact Hpast. reflexivity.
Qed.

(** X12.  The last entry of [salesTrend] is today's: its amount is
    [dailySales], for every period and every store. *)
Theorem salesTrend_ends_with_dailySales tz now period s :
  amount <$> last (salesTrend (getSalesAnalytics tz now period s))
    = Some (dailySales (getSalesAnalytics tz now period s)).
Proof.
  unfold getSalesAnalytics. simpl. rewrite Z.sub_0_r. reflexivity.
Qed.

Lemma weekly_day_in_window tz now i s :
  0 <= i <= 6 ->
  noneFromTheFuture now s ->
  onDayOf tz (now - i * 24 * 60 * 60 * 1000)
    (getTransactionsByDateRange (windowStart tz weekly now) now s)
  = onDayOf tz (now - i * 24 * 60 * 60 * 1000)
      (snd <$> map_to_list (transactions s)).
Proof.
  intros Hi Hpast. unfold onDayOf, getTransactionsByDateRange.
  apply filter_within. intros t Hin Hday. cbv zeta in *.
  apply elem_of_transactions in Hin as (k & Hk).
  pose proof (Hpast k t Hk) as Hle.
  destruct (same_day_in_window tz now i _ Hi Hle Hday) as [Hweek _].
  split; [exact Hweek | exact Hle].
Qed.

(** X13.  On a host whose local time keeps one offset [tz] from UTC (no
    daylight-saving change), with the period [weekly] the trend covers
    its seven days in full: provided no transaction is dated after
    [now], the entry of the day [i] days back (6 down to 0) is the sum of
    [totalAmount] over all the transactions of the store created on
    that local calendar day. *)
Theorem weekly_salesTrend_sums_whole_days tz now s :
  noneFromTheFuture now s ->
  amount <$> salesTrend (getSalesAnalytics tz now weekly s)
    = (fun i =>
         sumTotalAmount
           (onDayOf tz (now - i * 24 * 60 * 60 * 1000)
              (snd <$> map_to_list (transactions s))))
      <$> [6; 5; 4; 3; 2; 1; 0].
Proof.
  intros Hpast. unfold getSalesAnalytics.
  cbn [salesTrend fmap list_fmap amount].
  rewrite !weekly_day_in_window by (assumption || lia). reflexivity.
Qed.

(** X14.  A store without transactions reports nothing sold: for every
    period [dailySales] and [itemsSold] are 0 and the seven entries of
    the trend are 0. *)
Theorem analytics_of_empty_history tz now period s :
  transactions s = ∅ ->
  dailySales (getSalesAnalytics tz now period s) = 0 /\
  itemsSold (getSalesAnalytics tz now period s) = 0 /\
  amount <$> salesTrend (getSalesAnalytics tz now period s) = [0; 0; 0; 0; 0; 0; 0].
Proof.
  intros Hempty. unfold getSalesAnalytics, getTransactionsByDateRange.
  rewrite Hempty, map_to_list_empty. repeat split; reflexivity.
Qed.

Lemma shopNextDay_not_from_the_future :
  noneFromTheFuture Sample.noon Sample.shopNextDay.
Proof.
  intros k t Hk.
  assert (Hmap : transactions Sample.shopNextDay
                 = {[ "t-0" := newTransaction (Sample.gen "t-") Sample.yesterday
                                 (Sample.sale [Sample.line Sample.cola 2500 4] 10000 "cash")
                                 (newMemStorage (Sample.gen "seed-") Sample.yesterday) ]})
    by (vm_compute; reflexivity).
  rewrite Hmap in Hk. apply lookup_singleton_Some in Hk as [_ <-].
  vm_compute. discriminate.
Qed.

Lemma dailySales_is_todays_total_witness :
  dailySales (getSalesAnalytics 0 Sample.noon monthly Sample.shopNextDay) = 0.
Proof.
  rewrite dailySales_is_todays_total by exact shopNextDay_not_from_the_future.
  vm_compute. reflexivity.
Defined.

Lemma weekly_salesTrend_sums_whole_days_witness :
  amount <$> salesTrend (getSalesAnalytics 0 Sample.noon weekly Sample.shopNextDay)
    = [0; 0; 0; 0; 0; 10000; 0].
Proof.
  rewrite weekly_salesTrend_sums_whole_days by exact shopNextDay_not_from_the_future.
  vm_compute. reflexivity.
Defined.

Lemma analytics_of_empty_history_witness :
  dailySales (getSalesAnalytics 0 Sample.noon daily Sample.shop) = 0.
Proof.
  apply (analytics_of_empty_history 0 Sample.noon daily Sample.shop). reflexivity.
Defined.

(** ** Inventory alerts *)

Lemma elem_of_pushAlert type f found a :
  a ∈ pushAlert type f found <->
  found <> [] /\ a = InventoryAlert.mk type (f <$> found).
Proof.
  unfold pushAlert. destruct found as [|x rest].
  - split; [intros H; inversion H | intros [H _]; congruence].
  - rewrite list_elem_of_singleton. split; [intros ->; split; [discriminate|reflexivity]|].
    intros [_ ->]. reflexivity.
Qed.

Lemma pushAlert_types type f found :
  InventoryAlert.type <$> pushAlert type f found = [] \/
  InventoryAlert.type <$> pushAlert type f found = [type].
Proof. destruct found; [left | right]; reflexivity. Qed.

Lemma elem_of_getInventoryAlerts now s a :
  a ∈ getInventoryAlerts now s ->
  exists found,
    found <> [] /\
    ((InventoryAlert.type a = low_stock /\
      found = filter isLowStock (getProducts s) /\
      InventoryAlert.products a =
        (fun p => InventoryAlert.mkEntry (Product.id p) (Product.name p)
                    (JS.or_number (Product.stock p) 0) None) <$> found)
     \/
     (InventoryAlert.type a = out_of_stock /\
      found = filter isOutOfStock (getProducts s) /\
      InventoryAlert.products a =
        (fun p => InventoryAlert.mkEntry (Product.id p) (Product.name p) 0 None)
        <$> found)
     \/
     (InventoryAlert.type a = expiring_soon /\
      found = filter (isExpiringSoon now) (getProducts s) /\
      InventoryAlert.products a =
        (fun p => InventoryAlert.mkEntry (Product.id p) (Product.name p)
                    (JS.or_number (Product.stock p) 0)
                    (Some (daysToExpiry now (default 0 (Product.expiryDate p)))))
        <$> found)).
Proof.
  unfold getInventoryAlerts. cbv zeta. rewrite !elem_of_app, !elem_of_pushAlert.
  intros [[Hne ->]|[[Hne ->]|[Hne ->]]]; eexists; (split; [exact Hne|]); simpl; eauto 10.
Qed.

(** X15.  The alerts come in the order low stock, out of stock,
    expiring soon, each kind at most once and never with an empty list.
    Every entry is a product of the store under its own id and name; an
    entry of the low-stock alert reports a stock above 0 and below the
    product's [minStock] (5 when unset or 0), an entry of the
    out-of-stock alert reports 0 for a product whose stock is 0 or
    unset, so that no entry of the one can be an entry of the other; an
    entry of the expiring alert reports between 1 and 7 days. *)
Theorem inventoryAlerts_buckets now s :
  InventoryAlert.type <$> getInventoryAlerts now s
    `sublist_of` [low_stock; out_of_stock; expiring_soon] /\
  forall a, a ∈ getInventoryAlerts now s ->
    InventoryAlert.products a <> [] /\
    forall e, e ∈ InventoryAlert.products a ->
      exists p,
        p ∈ getProducts s /\
        InventoryAlert.id e = Product.id p /\
        InventoryAlert.name e = Product.name p /\
        match InventoryAlert.type a with
        | low_stock =>
            InventoryAlert.currentStock e = JS.or_number (Product.stock p) 0 /\
            0 < InventoryAlert.currentStock e < JS.or_number (Product.minStock p) 5
        | out_of_stock =>
            InventoryAlert.currentStock e = 0 /\ default 0 (Product.stock p) = 0
        | expiring_soon =>
            exists d, InventoryAlert.daysToExpiry e = Some d /\ 1 <= d <= 7
        end.
Proof.
  split.
  - unfold getInventoryAlerts. cbv zeta. rewrite !fmap_app.
    destruct (pushAlert_types low_stock
                (fun p => InventoryAlert.mkEntry (Product.id p) (Product.name p)
                            (JS.or_number (Product.stock p) 0) None)
                (filter isLowStock (getProducts s))) as [-> | ->],
      (pushAlert_types out_of_stock
                (fun p => InventoryAlert.mkEntry (Product.id p) (Product.name p) 0 None)
                (filter isOutOfStock (getProducts s))) as [-> | ->],
      (pushAlert_types expiring_soon
                (fun p => InventoryAlert.mkEntry (Product.id p) (Product.name p)
                            (JS.or_number (Product.stock p) 0)
                            (Some (daysToExpiry now (default 0 (Product.expiryDate p)))))
                (filter (isExpiringSoon now) (getProducts s))) as [-> | ->];
      simpl; repeat constructor.
  - intros a Ha.
    apply elem_of_getInventoryAlerts in Ha
      as (found & Hne & [(-> & Hfound & ->)|[(-> & Hfound & ->)|(-> & Hfound & ->)]]).
    + split; [destruct found; [congruence | discriminate]|].
      intros e He. apply list_elem_of_fmap in He as (p & -> & Hp).
      rewrite Hfound in Hp. apply list_elem_of_filter in Hp as [[Hlow Hpos] Hin].
      exists p. simpl. repeat split; try assumption; lia.
    + split; [destruct found; [congruence | discriminate]|].
      intros e He. apply list_elem_of_fmap in He as (p & -> & Hp).
      rewrite Hfound in Hp. apply list_elem_of_filter in Hp as [Hout Hin].
      exists p. simpl. repeat split; try assumption.
      unfold isOutOfStock in Hout. rewrite or_number_0 in Hout. exact Hout.
    + split; [destruct found; [congruence | discriminate]|].
      intros e He. apply list_elem_of_fmap in He as (p & -> & Hp).
      rewrite Hfound in Hp. apply list_elem_of_filter in Hp as [Hexp Hin].
      exists p. simpl. repeat split; try assumption.
      unfold isExpiringSoon in Hexp.
      destruct (Product.expiryDate p) as [expiry|]; [|contradiction].
      eexists. split; [reflexivity|]. simpl. lia.
Qed.

Lemma ceilDiv_days x :
  (0 < ceilDiv x (1000 * 60 * 60 * 24) <-> 0 < x) /\
  (ceilDiv x (1000 * 60 * 60 * 24) <= 7 <-> x <= days 7).
Proof.
  unfold ceilDiv, days.
  pose proof (Z.div_mod (- x) (1000 * 60 * 60 * 24) ltac:(discriminate)) as Hdm.
  pose proof (Z.mod_pos_bound (- x) (1000 * 60 * 60 * 24) ltac:(reflexivity)) as Hb.
  set (q := (- x) / (1000 * 60 * 60 * 24)) in *.
  set (r := (- x) mod (1000 * 60 * 60 * 24)) in *.
  clearbody q r. lia.
Qed.

(** X16.  A product is listed as expiring soon exactly when it has an
    expiry date that lies after [now] and at most seven days ahead; a
    product without an expiry date, one already expired and one expiring
    at this very instant are not listed. *)
Theorem expiring_soon_is_the_next_seven_days now s p :
  (isExpiringSoon now p <->
   exists expiry, Product.expiryDate p = Some expiry /\
                  now < expiry /\ expiry <= now + days 7) /\
  (p ∈ getProducts s /\ isExpiringSoon now p ->
   exists a e, a ∈ getInventoryAlerts now s /\
               InventoryAlert.type a = expiring_soon /\
               e ∈ InventoryAlert.products a /\
               InventoryAlert.id e = Product.id p /\
               InventoryAlert.name e = Product.name p /\
               InventoryAlert.daysToExpiry e
                 = Some (daysToExpiry now (default 0 (Product.expiryDate p)))).
Proof.
  split.
  - unfold isExpiringSoon. destruct (Product.expiryDate p) as [expiry|].
    + unfold daysToExpiry.
      pose proof (ceilDiv_days (expiry - now)) as [Hpos Hweek]. split.
      * intros [H7 H0]. exists expiry. split; [reflexivity|]. lia.
      * intros (e & He & Hlo & Hhi). injection He as <-. lia.
    + split; [contradiction | intros (e & He & _); discriminate].
  - intros [Hin Hexp].
    assert (Hfound : p ∈ filter (isExpiringSoon now) (getProducts s))
      by (apply list_elem_of_filter; split; assumption).
    eexists (InventoryAlert.mk expiring_soon _), _.
    split; [|split; [reflexivity|split; [|split; [|split]]]].
    + unfold getInventoryAlerts. cbv zeta. rewrite !elem_of_app, !elem_of_pushAlert.
      right; right. split; [|reflexivity].
      intros Hnil. rewrite Hnil in Hfound. inversion Hfound.
    + simpl. apply list_elem_of_fmap. exists p. split; [reflexivity | exact Hfound].
    + reflexivity.
    + reflexivity.
    + reflexivity.
Qed.

Lemma expiring_soon_is_the_next_seven_days_witness :
  ~ isExpiringSoon Sample.noon Sample.colaProduct.
Proof.
  intros Hexp.
  apply (expiring_soon_is_the_next_seven_days Sample.noon Sample.shop) in Hexp
    as (expiry & He & _ & Hhi).
  injection He as <-. unfold Sample.noon, days in Hhi. lia.
Defined.

(** ** The cart of the billing page *)

Lemma cartIds_setQuantity productId f cart :
  cartIds (Cart.setQuantity productId f cart) = cartIds cart.
Proof.
  unfold cartIds, Cart.setQuantity. rewrite <- list_fmap_compose.
  apply list_fmap_ext. intros i item _. simpl. case_decide; reflexivity.
Qed.

Lemma cartIds_removeFromCart productId cart :
  cartIds (Cart.removeFromCart productId cart)
    = filter (fun id => id <> productId) (cartIds cart).
Proof.
  unfold cartIds, Cart.removeFromCart.
  induction cart as [|item rest IH]; [reflexivity|].
  rewrite fmap_cons, !filter_cons. simpl.
  destruct (decide (Product.id (Billing.product item) <> productId));
    rewrite <- IH; reflexivity.
Qed.

Lemma elem_of_setQuantity productId f cart item :
  item ∈ Cart.setQuantity productId f cart ->
  exists old, old ∈ cart /\
    ((Cart.isProduct productId old /\
      item = Billing.mkCartItem (Billing.product old) (f (Billing.quantity old)))
     \/ (~ Cart.isProduct productId old /\ item = old)).
Proof.
  unfold Cart.setQuantity. intros Hin.
  apply list_elem_of_fmap in Hin as (old & -> & Hold).
  exists old. split; [exact Hold|]. case_decide; [left | right]; auto.
Qed.

(** With one line per product, the line [find] meets is the only one. *)
Lemma found_line_is_the_line productId cart i found item :
  NoDup (cartIds cart) ->
  list_find (Cart.isProduct productId) cart = Some (i, found) ->
  item ∈ cart -> Cart.isProduct productId item -> item = found.
Proof.
  intros Hnodup Hfind Hin Hitem.
  apply list_find_Some in Hfind as (Hi & Hfound & _).
  apply list_elem_of_lookup in Hin as (j & Hj).
  unfold Cart.isProduct in *.
  assert (i = j); [|congruence].
  apply (NoDup_lookup (cartIds cart) i j productId Hnodup); unfold cartIds;
    rewrite list_lookup_fmap; [rewrite Hi | rewrite Hj]; simpl; congruence.
Qed.

Lemma addToCart_well_formed product cart :
  cartWellFormed cart ->
  (forall item, item ∈ cart ->
     Product.id (Billing.product item) = Product.id product ->
     JS.or_number (Product.stock product) 0
       <= JS.or_number (Product.stock (Billing.product item)) 0) ->
  cartWellFormed (Cart.addToCart product cart).
Proof.
  intros [Hnodup Hlines] Hsnapshot. unfold Cart.addToCart.
  case_decide as Hstock; [split; assumption|].
  destruct (list_find (Cart.isProduct (Product.id product)) cart)
    as [[i existingItem]|] eqn:Hfind.
  - case_decide as Hfull; [split; assumption|]. split.
    + rewrite cartIds_setQuantity. exact Hnodup.
    + intros item Hin.
      apply elem_of_setQuantity in Hin as (old & Hold & [[Hid ->]|[_ ->]]);
        [|apply Hlines, Hold].
      pose proof (found_line_is_the_line _ _ _ _ _ Hnodup Hfind Hold Hid) as ->.
      pose proof (Hlines _ Hold) as [Hone _].
      pose proof (Hsnapshot _ Hold Hid). simpl. lia.
  - apply list_find_None in Hfind. rewrite Forall_forall in Hfind. split.
    + unfold cartIds. rewrite fmap_app. apply NoDup_app. split; [exact Hnodup|].
      split; [|apply NoDup_singleton].
      intros id Hid Hnew. apply list_elem_of_singleton in Hnew. simpl in Hnew. subst id.
      apply list_elem_of_fmap in Hid as (item & Heq & Hitem).
      apply (Hfind item Hitem). unfold Cart.isProduct. congruence.
    + intros item Hin. apply elem_of_app in Hin as [Hold|Hnew]; [apply Hlines, Hold|].
      apply list_elem_of_singleton in Hnew as ->. simpl. lia.
Qed.

Lemma removeFromCart_well_formed productId cart :
  cartWellFormed cart -> cartWellFormed (Cart.removeFromCart productId cart).
Proof.
  intros [Hnodup Hlines]. split.
  - rewrite cartIds_removeFromCart. apply NoDup_filter, Hnodup.
  - intros item Hin. unfold Cart.removeFromCart in Hin.
    apply list_elem_of_filter in Hin as [_ Hin]. apply Hlines, Hin.
Qed.

Lemma updateQuantity_well_formed productId newQuantity cart :
  cartWellFormed cart -> cartWellFormed (Cart.updateQuantity productId newQuantity cart).
Proof.
  intros Hcart. unfold Cart.updateQuantity.
  case_decide as Hq; [apply removeFromCart_well_formed, Hcart|].
  destruct Hcart as [Hnodup Hlines].
  destruct (list_find (Cart.isProduct productId) cart) as [[i found]|] eqn:Hfind.
  - case_decide as Hstock; [split; assumption|]. split.
    + rewrite cartIds_setQuantity. exact Hnodup.
    + intros item Hin.
      apply elem_of_setQuantity in Hin as (old & Hold & [[Hid ->]|[_ ->]]);
        [|apply Hlines, Hold].
      pose proof (found_line_is_the_line _ _ _ _ _ Hnodup Hfind Hold Hid) as ->.
      simpl. lia.
  - apply list_find_None in Hfind. rewrite Forall_forall in Hfind. split.
    + rewrite cartIds_setQuantity. exact Hnodup.
    + intros item Hin.
      apply elem_of_setQuantity in Hin as (old & Hold & [[Hid _]|[_ ->]]);
        [exfalso; exact (Hfind old Hold Hid) | apply Hlines, Hold].
Qed.

(** X17.  The cart keeps its shape.  The empty cart has it, and
    [addToCart], [updateQuantity] and [removeFromCart] keep it: one line
    per product, every line of at least one piece and of no more than
    the stock of the product on the line.  For [addToCart] this needs the
    product handed in to have no more stock than the copy of it already
    on its line. *)
Theorem cart_stays_well_formed cart :
  cartWellFormed [] /\
  (cartWellFormed cart ->
   (forall product,
      (forall item, item ∈ cart ->
         Product.id (Billing.product item) = Product.id product ->
         JS.or_number (Product.stock product) 0
           <= JS.or_number (Product.stock (Billing.product item)) 0) ->
      cartWellFormed (Cart.addToCart product cart)) /\
   (forall productId newQuantity,
      cartWellFormed (Cart.updateQuantity productId newQuantity cart)) /\
   (forall productId, cartWellFormed (Cart.removeFromCart productId cart))).
Proof.
  split.
  - split; [apply NoDup_nil_2 | intros item Hin; inversion Hin].
  - intros Hcart. split; [|split].
    + intros product Hsnapshot. apply addToCart_well_formed; assumption.
    + intros productId newQuantity. apply updateQuantity_well_formed, Hcart.
    + intros productId. apply removeFromCart_well_formed, Hcart.
Qed.

Lemma cart_stays_well_formed_witness :
  cartWellFormed
    (Cart.updateQuantity Sample.cola 45
       (Cart.addToCart Sample.colaProduct (Cart.addToCart Sample.colaProduct []))).
Proof.
  pose proof (cart_stays_well_formed []) as [Hempty _].
  pose proof (cart_stays_well_formed []) as [_ Hfirst].
  destruct (Hfirst Hempty) as [Hadd _].
  assert (H1 : cartWellFormed (Cart.addToCart Sample.colaProduct [])).
  { apply Hadd. intros item Hin. inversion Hin. }
  pose proof (cart_stays_well_formed (Cart.addToCart Sample.colaProduct [])) as [_ Hsecond].
  destruct (Hsecond H1) as [Hadd2 _].
  assert (H2 : cartWellFormed
                 (Cart.addToCart Sample.colaProduct (Cart.addToCart Sample.colaProduct []))).
  { apply Hadd2. intros item Hin Hid.
    apply list_elem_of_singleton in Hin as ->. simpl. lia. }
  pose proof (cart_stays_well_formed
                (Cart.addToCart Sample.colaProduct (Cart.addToCart Sample.colaProduct [])))
    as [_ Hthird].
  destruct (Hthird H2) as (_ & Hupdate & _).
  apply Hupdate.
Defined.

(** ** The product routes *)

(** X20.  [POST /api/products/:id/stock] answers 400 with "Quantity
    must be a number" and leaves the store alone when the quantity is no
    number; 400 with "Product not found" and the store unchanged when the
    product does not exist (not 404); and otherwise 200 with the product
    as stored after the adjustment, its stock being
    [max 0 (stock + quantity)]. *)
Theorem stock_route_answers uuid now id s :
  Routes.postStock uuid now id None s
    = (Routes.mkResponse 400 (Routes.JsonMessage "Quantity must be a number"), s) /\
  (forall quantity, products s !! id = None ->
     Routes.postStock uuid now id (Some quantity) s
       = (Routes.mkResponse 400 (Routes.JsonMessage "Product not found"), s)) /\
  (forall quantity p, products s !! id = Some p ->
     exists p' s',
       Routes.postStock uuid now id (Some quantity) s
         = (Routes.mkResponse 200 (Routes.JsonProduct (Some p')), s') /\
       products s' !! id = Some p' /\
       Product.id p' = Product.id p /\
       Product.name p' = Product.name p /\
       currentStock p' = Z.max 0 (currentStock p + quantity)).
Proof.
  split; [reflexivity|]. split.
  - intros quantity Hp. unfold Routes.postStock.
    rewrite (updateStock_missing _ _ _ _ _ Hp). reflexivity.
  - intros quantity p Hp. unfold Routes.postStock, getProduct.
    rewrite (updateStock_found _ _ _ _ _ _ Hp). simpl_store.
    rewrite lookup_insert_eq. eexists _, _. split; [reflexivity|].
    split; [apply lookup_insert_eq|]. repeat split; reflexivity.
Qed.

Lemma stock_route_answers_witness :
  Routes.status (fst (Routes.postStock "m-1" Sample.noon "nope" (Some 3) Sample.shop))
    = 400%nat.
Proof.
  destruct (stock_route_answers "m-1" Sample.noon "nope" Sample.shop) as (_ & Hmissing & _).
  rewrite (Hmissing 3 eq_refl). reflexivity.
Defined.

(** X21.  [DELETE /api/products/:id] answers 204 whether or not the
    product existed, and [GET /api/products/:id] answers 404 from then
    on.  [GET /api/products/barcode/:barcode] answers 404 exactly when
    no product of the store carries the barcode, and otherwise 200 with
    a product of the store that carries it. *)
Theorem product_routes_answer id barcode s :
  (exists s',
     Routes.deleteProductById id s = (Routes.mkResponse 204 Routes.NoBody, s') /\
     Routes.getProductById id s'
       = Routes.mkResponse 404 (Routes.JsonMessage "Product not found")) /\
  (Routes.getByBarcode barcode s
     = Routes.mkResponse 404 (Routes.JsonMessage "Product not found")
   <-> forall k p, products s !! k = Some p -> Product.barcode p <> Some barcode) /\
  (forall response,
     Routes.getByBarcode barcode s = response ->
     Routes.status response <> 404%nat ->
     exists k p, products s !! k = Some p /\ Product.barcode p = Some barcode /\
                 response = Routes.mkResponse 200 (Routes.JsonProduct (Some p))).
Proof.
  split; [|split].
  - eexists. split; [reflexivity|].
    unfold Routes.getProductById, getProduct. simpl_store.
    rewrite lookup_delete_eq. reflexivity.
  - rewrite <- getProductByBarcode_None. unfold Routes.getByBarcode.
    destruct (getProductByBarcode barcode s); split; congruence.
  - intros response <- Hstatus. unfold Routes.getByBarcode in *.
    destruct (getProductByBarcode barcode s) as [p|] eqn:Hfind.
    + apply getProductByBarcode_Some in Hfind as (Hb & k & Hk).
      exists k, p. repeat split; assumption.
    + simpl in Hstatus. congruence.
Qed.

Lemma product_routes_answer_witness :
  exists k p,
    products Sample.shop !! k = Some p /\
    Product.barcode p = Some "8901030002345" /\
    Routes.getByBarcode "8901030002345" Sample.shop
      = Routes.mkResponse 200 (Routes.JsonProduct (Some p)).
Proof.
  destruct (product_routes_answer "nope" "8901030002345" Sample.shop) as (_ & _ & Hfound).
  destruct (Hfound (Routes.getByBarcode "8901030002345" Sample.shop) eq_refl)
    as (k & p & Hk & Hb & Hresponse).
  - vm_compute. discriminate.
  - exists k, p. repeat split; assumption.
Defined.

(** ** Listings, newest first *)

Lemma newerFirst_total {A} (createdAt : A -> option Timestamp) :
  Total (newerFirst createdAt).
Proof. intros a b. unfold newerFirst. lia. Qed.

Lemma newerFirst_trans {A} (createdAt : A -> option Timestamp) :
  Transitive (newerFirst createdAt).
Proof. intros a b c. unfold newerFirst. lia. Qed.

Lemma StronglySorted_lookup {A} (R : relation A) (l : list A) :
  StronglySorted R l ->
  forall i j a b, l !! i = Some a -> l !! j = Some b -> (i < j)%nat -> R a b.
Proof.
  induction 1 as [|x rest Hsorted IH Hforall]; intros i j a b Ha Hb Hij.
  - rewrite lookup_nil in Ha. discriminate.
  - destruct j as [|j]; [lia|]. simpl in Hb. destruct i as [|i]; simpl in Ha.
    + injection Ha as <-. rewrite Forall_forall in Hforall.
      apply Hforall, list_elem_of_lookup. eauto.
    + apply (IH i j); [assumption | assumption | lia].
Qed.

(** X22.  [getTransactions] lists every transaction of the store once,
    nothing else, and newest first: no transaction is listed before one
    created later. *)
Theorem getTransactions_newest_first s :
  getTransactions s ≡ₚ snd <$> map_to_list (transactions s) /\
  length (getTransactions s) = size (transactions s) /\
  (forall t, t ∈ getTransactions s <-> exists k, transactions s !! k = Some t) /\
  (forall i j a b,
     getTransactions s !! i = Some a -> getTransactions s !! j = Some b ->
     (i < j)%nat ->
     new_Date (Transaction.createdAt b) <= new_Date (Transaction.createdAt a)).
Proof.
  unfold getTransactions.
  pose proof (merge_sort_Permutation (newerFirst Transaction.createdAt)
                (snd <$> map_to_list (transactions s))) as Hperm.
  split; [exact Hperm|]. split; [|split].
  - rewrite Hperm, length_fmap. apply length_map_to_list.
  - intros t. rewrite Hperm. apply elem_of_transactions.
  - intros i j a b Ha Hb Hij.
    pose proof (@StronglySorted_merge_sort _ (newerFirst Transaction.createdAt) _
                  (newerFirst_trans _) (newerFirst_total _)
                  (snd <$> map_to_list (transactions s))) as Hsorted.
    exact (StronglySorted_lookup _ _ Hsorted i j a b Ha Hb Hij).
Qed.

Lemma elem_of_movements m s :
  m ∈ snd <$> map_to_list (inventoryMovements s)
  <-> exists k, inventoryMovements s !! k = Some m.
Proof.
  rewrite list_elem_of_fmap. split.
  - intros ([k x] & -> & Hin). exists k. apply elem_of_map_to_list in Hin. exact Hin.
  - intros (k & Hk). exists (k, m). split; [reflexivity|].
    apply elem_of_map_to_list. exact Hk.
Qed.

(** X23.  [getInventoryMovements] with a product id that is not empty
    lists exactly the movements recorded for that product; without one,
    or with the empty string, it lists every movement of the store once,
    newest first.  After [updateStock] on a product of the store the
    movement just recorded is in the product's list. *)
Theorem getInventoryMovements_lists c rest s :
  (forall m, m ∈ getInventoryMovements (Some (String c rest)) s <->
     (exists k, inventoryMovements s !! k = Some m) /\
     InventoryMovement.productId m = String c rest) /\
  getInventoryMovements (Some EmptyString) s = getInventoryMovements None s /\
  getInventoryMovements None s ≡ₚ snd <$> map_to_list (inventoryMovements s) /\
  (forall i j a b,
     getInventoryMovements None s !! i = Some a ->
     getInventoryMovements None s !! j = Some b ->
     (i < j)%nat ->
     new_Date (InventoryMovement.createdAt b) <= new_Date (InventoryMovement.createdAt a)) /\
  (forall uuid now quantity p,
     products s !! String c rest = Some p ->
     exists m,
       m ∈ getInventoryMovements (Some (String c rest))
             (store_after (updateStock uuid now (String c rest) quantity) s) /\
       InventoryMovement.id m = uuid /\
       InventoryMovement.previousStock m = currentStock p /\
       InventoryMovement.newStock m = Z.max 0 (currentStock p + quantity)).
Proof.
  split; [|split; [|split; [|split]]].
  - intros m. unfold getInventoryMovements. cbv zeta.
    rewrite list_elem_of_filter, elem_of_movements. tauto.
  - reflexivity.
  - apply merge_sort_Permutation.
  - intros i j a b Ha Hb Hij. unfold getInventoryMovements in *.
    pose proof (@StronglySorted_merge_sort _ (newerFirst InventoryMovement.createdAt) _
                  (newerFirst_trans _) (newerFirst_total _)
                  (snd <$> map_to_list (inventoryMovements s))) as Hsorted.
    exact (StronglySorted_lookup _ _ Hsorted i j a b Ha Hb Hij).
  - intros uuid now quantity p Hp. unfold store_after.
    rewrite (updateStock_found _ _ _ _ _ _ Hp). cbn [snd].
    exists (InventoryMovement.mk uuid (String c rest)
              (if 0 <? quantity then "purchase" else "sale")
              (Z.abs quantity) (currentStock p)
              (Z.max 0 (currentStock p + quantity))
              (Some (if 0 <? quantity then "Stock added" else "Sale"))
              None (Some now)).
    split; [|repeat split; reflexivity].
    unfold getInventoryMovements. cbv zeta.
    rewrite list_elem_of_filter, elem_of_movements. split; [reflexivity|].
    exists uuid. simpl_store. apply lookup_insert_eq.
Qed.

Lemma getInventoryMovements_lists_witness :
  exists m,
    m ∈ getInventoryMovements (Some Sample.cola)
          (store_after (updateStock "m-1" Sample.noon Sample.cola (-2)) Sample.shop) /\
    InventoryMovement.newStock m = 43.
Proof.
  destruct (getInventoryMovements_lists "s" "eed-3" Sample.shop) as (_ & _ & _ & _ & Hnew).
  destruct (Hnew "m-1" Sample.noon (-2) Sample.colaProduct eq_refl)
    as (m & Hin & _ & _ & Hstock).
  exists m. split; [exact Hin | exact Hstock].
Defined.

(** ** A sale in the analytics *)

Lemma foldl_sum_shift {A} (f : A -> Z) (l : list A) :
  forall a b,
    foldl (fun sum x => sum + f x) (a + b) l = b + foldl (fun sum x => sum + f x) a l.
Proof.
  induction l as [|x rest IH]; intros a b; simpl; [lia|].
  replace (a + b + f x) with (a + f x + b) by lia. apply IH.
Qed.

Lemma foldl_sum_cons {A} (f : A -> Z) (x : A) (l : list A) a :
  foldl (fun sum x => sum + f x) a (x :: l)
    = f x + foldl (fun sum x => sum + f x) a l.
Proof. simpl. apply foldl_sum_shift. Qed.

Lemma foldl_sum_perm {A} (f : A -> Z) (l l' : list A) :
  l ≡ₚ l' ->
  forall a, foldl (fun sum x => sum + f x) a l = foldl (fun sum x => sum + f x) a l'.
Proof.
  induction 1 as [|x l l' _ IH|x y l|l l' l'' _ IH1 _ IH2]; intros a; simpl.
  - reflexivity.
  - apply IH.
  - f_equal. lia.
  - rewrite IH1. apply IH2.
Qed.

Lemma windowStart_le_now tz period now : windowStart tz period now <= now.
Proof.
  assert (Hday : Calendar.startOfDay tz now <= now).
  { unfold Calendar.startOfDay, Calendar.toDateString.
    pose proof (day_bounds (now + tz)). lia. }
  destruct period; simpl.
  - exact Hday.
  - lia.
  - etrans; [apply startOfMonth_le_startOfDay | exact Hday].
Qed.

(** The transactions after a sale under a new identifier: the new one
    and the old ones. *)
Lemma createTransaction_values gen now ins s t s' :
  createTransaction gen now ins s = (Return t, s') ->
  transactions s !! gen 0%nat = None ->
  t = newTransaction gen now ins s /\
  snd <$> map_to_list (transactions s') ≡ₚ t :: (snd <$> map_to_list (transactions s)).
Proof.
  intros Hrun Hfresh. rewrite createTransaction_run in Hrun.
  pose proof (sellItems_frame gen now (InsertTransaction.items ins) 1
                (set_transactionCounter (S (transactionCounter s)) s)) as [Ht _].
  unfold store_after in Ht.
  destruct (sellItems gen 1 now (InsertTransaction.items ins) _) as [[[]|msg] s1];
    [|discriminate].
  injection Hrun as <- <-. split; [reflexivity|]. simpl_store.
  rewrite map_to_list_insert by (rewrite Ht; exact Hfresh).
  rewrite fmap_cons, Ht. reflexivity.
Qed.

(** X24.  A sale shows in the figures of the day.  After
    [createTransaction] has returned, under a transaction identifier that
    was not in use and with no transaction dated after [now], the
    analytics taken at the instant of the sale report, for every period,
    a [dailySales] larger by the [totalAmount] of the sale and an
    [itemsSold] larger by the quantities of its items. *)
Theorem sale_shows_in_analytics tz gen now ins s t s' period :
  createTransaction gen now ins s = (Return t, s') ->
  transactions s !! gen 0%nat = None ->
  noneFromTheFuture now s ->
  dailySales (getSalesAnalytics tz now period s')
    = dailySales (getSalesAnalytics tz now period s)
      + InsertTransaction.totalAmount ins /\
  itemsSold (getSalesAnalytics tz now period s')
    = itemsSold (getSalesAnalytics tz now period s)
      + foldl (fun itemSum item => itemSum + Item.quantity item) 0
          (InsertTransaction.items ins).
Proof.
  intros Hrun Hfresh Hpast.
  destruct (createTransaction_values _ _ _ _ _ _ Hrun Hfresh) as [-> Hperm].
  pose proof (windowStart_le_now tz period now) as Hstart.
  assert (Hwindow :
    getTransactionsByDateRange (windowStart tz period now) now s'
    ≡ₚ newTransaction gen now ins s
       :: getTransactionsByDateRange (windowStart tz period now) now s).
  { unfold getTransactionsByDateRange. rewrite Hperm.
    rewrite filter_cons_True; [reflexivity|]. simpl. lia. }
  assert (Hdaily : forall st,
    dailySales (getSalesAnalytics tz now period st)
    = foldl (fun sum t => sum + Transaction.totalAmount t) 0
        (onDayOf tz now (getTransactionsByDateRange (windowStart tz period now) now st)))
    by reflexivity.
  assert (Hitems : forall st,
    itemsSold (getSalesAnalytics tz now period st)
    = foldl
        (fun sum t =>
           sum + foldl (fun itemSum item => itemSum + Item.quantity item) 0
                   (Transaction.items t))
        0 (getTransactionsByDateRange (windowStart tz period now) now st))
    by reflexivity.
  rewrite !Hdaily, !Hitems. split.
  - unfold onDayOf.
    rewrite (foldl_sum_perm _ _ _ (filter_Permutation _ _ _ Hwindow)).
    rewrite filter_cons_True by reflexivity.
    rewrite foldl_sum_cons. simpl. lia.
  - rewrite (foldl_sum_perm _ _ _ Hwindow).
    rewrite (foldl_sum_cons
               (fun t => foldl (fun itemSum item => itemSum + Item.quantity item) 0
                           (Transaction.items t))).
    simpl. lia.
Qed.

Lemma sale_shows_in_analytics_witness :
  dailySales
    (getSalesAnalytics 0 Sample.noon daily
       (store_after (createTransaction (Sample.gen "u-") Sample.noon Sample.checkout)
          Sample.shopNextDay))
  = 4700.
Proof.
  destruct (sale_shows_in_analytics 0 (Sample.gen "u-") Sample.noon Sample.checkout
              Sample.shopNextDay
              (newTransaction (Sample.gen "u-") Sample.noon Sample.checkout Sample.shopNextDay)
              (store_after
                 (createTransaction (Sample.gen "u-") Sample.noon Sample.checkout)
                 Sample.shopNextDay)
              daily) as [Hsales _].
  - vm_compute. reflexivity.
  - reflexivity.
  - exact shopNextDay_not_from_the_future.
  - rewrite Hsales. vm_compute. reflexivity.
Defined.

(** ** Editing a product *)

(** X25.  [updateProduct] on an identifier the store does not hold
    throws "Product not found" and changes nothing.  On a product of the
    store it returns the product as stored afterwards: same [id] and
    [createdAt], [updatedAt] set to the instant of the call, and each of
    the thirteen other fields taken from the update when the update
    carries it and kept as it was when it does not; no other product,
    no movement and no transaction changes. *)
Theorem updateProduct_edits_in_place id upd now s :
  (products s !! id = None ->
   updateProduct id upd now s = (Throw "Product not found", s)) /\
  (forall existing, products s !! id = Some existing ->
   exists updated s',
     updateProduct id upd now s = (Return updated, s') /\
     getProduct id s' = Some updated /\
     Product.id updated = Product.id existing /\
     Product.createdAt updated = Product.createdAt existing /\
     Product.updatedAt updated = Some now /\
     Product.name updated = default (Product.name existing) (PartialProduct.name upd) /\
     Product.barcode updated
       = default (Product.barcode existing) (PartialProduct.barcode upd) /\
     Product.price updated = default (Product.price existing) (PartialProduct.price upd) /\
     Product.costPrice updated
       = default (Product.costPrice existing) (PartialProduct.costPrice upd) /\
     Product.category updated
       = default (Product.category existing) (PartialProduct.category upd) /\
     Product.brand updated = default (Product.brand existing) (PartialProduct.brand upd) /\
     Product.description updated
       = default (Product.description existing) (PartialProduct.description upd) /\
     Product.stock updated = default (Product.stock existing) (PartialProduct.stock upd) /\
     Product.minStock updated
       = default (Product.minStock existing) (PartialProduct.minStock upd) /\
     Product.maxStock updated
       = default (Product.maxStock existing) (PartialProduct.maxStock upd) /\
     Product.unit updated = default (Product.unit existing) (PartialProduct.unit upd) /\
     Product.expiryDate updated
       = default (Product.expiryDate existing) (PartialProduct.expiryDate upd) /\
     Product.isActive updated
       = default (Product.isActive existing) (PartialProduct.isActive upd) /\
     (forall other, other <> id -> getProduct other s' = getProduct other s) /\
     inventoryMovements s' = inventoryMovements s /\
     transactions s' = transactions s /\
     transactionCounter s' = transactionCounter s).
Proof.
  split.
  - intros Hmissing. unfold updateProduct. unfold_store. rewrite Hmissing. reflexivity.
  - intros existing Hexisting. unfold updateProduct, getProduct. unfold_store.
    rewrite Hexisting. eexists _, _. split; [reflexivity|]. simpl_store.
    split; [apply lookup_insert_eq|].
    assert (Hspread : forall A (old : A) (field : option A),
              JS.spread old field = default old field)
      by (intros A old [v|]; reflexivity).
    rewrite !Hspread.
    repeat (split; [reflexivity|]).
    split; [intros other Hne; apply lookup_insert_ne; congruence|].
    repeat split; reflexivity.
Qed.

Lemma updateProduct_edits_in_place_witness :
  updateProduct "nope" Sample.recount Sample.noon Sample.shop
    = (Throw "Product not found", Sample.shop).
Proof.
  apply (updateProduct_edits_in_place "nope" Sample.recount Sample.noon Sample.shop).
  reflexivity.
Defined.
